(** * vaihde: a shallow embedding of [config.py], [ops.py] and [cli.py]

  The tool creates git worktrees from a per-repository configuration file.
  Its code is a sequence of calls into the operating system (filesystem,
  subprocesses, logging), so the embedding is a state-and-exception monad
  over an explicit [World]; the behaviour of everything outside the
  repository (git, the TOML parser, [shlex], the user database) is supplied
  by an [Env] record and stays arbitrary in the theorems. *)

From Stdlib Require Import ZArith Ascii String List Bool Lia.
From stdpp Require Import base option list gmap strings fin_maps.

Import ListNotations.
Open Scope string_scope.
Set Warnings "-register-all".

(** ** Python [str] operations used by the program *)

Module PyStr.

Definition slash : ascii := "/"%char.
Definition underscore : ascii := "_"%char.

(** [c in chars] for a one-character [c]. *)
Fixpoint mem (c : ascii) (chars : string) : bool :=
  match chars with
  | EmptyString => false
  | String d rest => Ascii.eqb c d || mem c rest
  end.

(** [s.lstrip(chars)]: drop leading characters that occur in [chars]. *)
Fixpoint lstrip (chars : string) (s : string) : string :=
  match s with
  | EmptyString => EmptyString
  | String c rest => if mem c chars then lstrip chars rest else s
  end.

(** [s.replace(old, new)] for a one-character [old]. *)
Fixpoint replace (old : ascii) (new : string) (s : string) : string :=
  match s with
  | EmptyString => EmptyString
  | String c rest =>
      if Ascii.eqb c old then new +:+ replace old new rest
      else String c (replace old new rest)
  end.

Fixpoint rev_acc (s acc : string) : string :=
  match s with
  | EmptyString => acc
  | String c rest => rev_acc rest (String c acc)
  end.

Definition rev (s : string) : string := rev_acc s EmptyString.

(** [s.rstrip(chars)]. *)
Definition rstrip (chars : string) (s : string) : string :=
  rev (lstrip chars (rev s)).

(** The whitespace set of [str.strip()] restricted to ASCII:
    space, \t, \n, \v, \f, \r and the separators \x1c..\x1f. *)
Definition whitespace : string :=
  String " "%char (String (ascii_of_nat 9) (String (ascii_of_nat 10)
  (String (ascii_of_nat 11) (String (ascii_of_nat 12)
  (String (ascii_of_nat 13) (String (ascii_of_nat 28)
  (String (ascii_of_nat 29) (String (ascii_of_nat 30)
  (String (ascii_of_nat 31) EmptyString))))))))).

(** [s.strip()]. *)
Definition strip (s : string) : string :=
  rstrip whitespace (lstrip whitespace s).

(** [s.startswith(p)]. *)
Fixpoint startswith (p s : string) : bool :=
  match p, s with
  | EmptyString, _ => true
  | String a p', String b s' => Ascii.eqb a b && startswith p' s'
  | String _ _, EmptyString => false
  end.

(** [s.endswith(p)]. *)
Definition endswith (p s : string) : bool := startswith (rev p) (rev s).

(** [p in s] for strings: substring test. *)
Fixpoint contains (p s : string) : bool :=
  startswith p s ||
  match s with
  | EmptyString => false
  | String _ rest => contains p rest
  end.

(** [list(s)]: the one-character strings of [s]. *)
Fixpoint chars (s : string) : list string :=
  match s with
  | EmptyString => []
  | String c rest => String c EmptyString :: chars rest
  end.

End PyStr.

(** ** [pathlib] paths

  A path is represented by its [str()]: on POSIX a [PurePath] is determined
  by that string.  The functions below are the POSIX flavour of the
  [pathlib] operations the program calls. *)

Module PurePath.

Definition Path := string.

Fixpoint split_on (sep : ascii) (cur : string) (s : string) : list string :=
  match s with
  | EmptyString => [PyStr.rev cur]
  | String c rest =>
      if Ascii.eqb c sep then PyStr.rev cur :: split_on sep EmptyString rest
      else split_on sep (String c cur) rest
  end.

Fixpoint join_with (sep : string) (parts : list string) : string :=
  match parts with
  | [] => EmptyString
  | [p] => p
  | p :: rest => p +:+ sep +:+ join_with sep rest
  end.

Fixpoint count_leading (c : ascii) (s : string) : nat :=
  match s with
  | String d rest => if Ascii.eqb c d then S (count_leading c rest) else 0
  | EmptyString => 0
  end.

Definition is_segment (p : string) : bool :=
  negb (String.eqb p "" || String.eqb p ".").

(** [str(PurePosixPath(s))]: empty and [.] segments are dropped, a run of
    leading separators collapses to one unless it has exactly two, and the
    empty relative path prints as [.]. *)
Definition of_str (s : string) : Path :=
  let root := match count_leading PyStr.slash s with
              | 0 => "" | 2 => "//" | _ => "/" end in
  let body := join_with "/" (filter (fun p => is_segment p = true)
                               (split_on PyStr.slash EmptyString s)) in
  match root, body with
  | "", "" => "."
  | _, _ => root +:+ body
  end.

Definition is_absolute (p : Path) : bool := PyStr.startswith "/" p.

(** [os.path.join(a, b)]. *)
Definition os_path_join (a b : string) : string :=
  if PyStr.startswith "/" b then b
  else if String.eqb a "" || PyStr.endswith "/" a then a +:+ b
  else a +:+ "/" +:+ b.

(** [a / b]. *)
Definition joinpath (a : Path) (b : string) : Path :=
  of_str (os_path_join a b).

(** The proper prefixes of [s] that end just before a separator, outermost
    first: the ancestors of a normalised path, without [.]. *)
Fixpoint ancestors_from (pre : string) (s : string) : list Path :=
  match s with
  | EmptyString => []
  | String c rest =>
      (if Ascii.eqb c PyStr.slash
       then [match pre with EmptyString => "/" | _ => PyStr.rev pre end]
       else [])
      ++ ancestors_from (String c pre) rest
  end.

Definition ancestors (p : Path) : list Path := ancestors_from EmptyString p.

(** [p.parent]. *)
Definition parent (p : Path) : Path :=
  match List.last (map Some (ancestors p)) None with
  | Some q => q
  | None => "."
  end.

(** [p.name]. *)
Definition name (p : Path) : string :=
  match List.last (map Some (split_on PyStr.slash EmptyString p)) None with
  | Some n => n
  | None => ""
  end.

End PurePath.

(** ** Python values, exceptions and the effect monad *)

Module Py.

(** What [tomllib.loads] can return.  A table is an association list in
    file order, as a Python [dict] iterates in insertion order.  A float is
    kept only as "is it non-zero", the one observation the program can
    make of it (its truth value). *)
Inductive value :=
| TStr (s : string)
| TInt (n : Z)
| TBool (b : bool)
| TFloat (nonzero : bool)
| TDatetime (repr : string)
| TArray (items : list value)
| TTable (items : list (string * value)).

(** The exceptions of Python and its libraries that the program can meet.
    [OSError] stands for the class and all its subclasses
    ([FileNotFoundError], [PermissionError], [shutil.Error], ...), which is
    what [except OSError] catches. *)
Inductive pyexc :=
| OSError (msg : string)
| TypeError (msg : string)
| AttributeError (msg : string)
| RuntimeError (msg : string)
| ValueError (msg : string)
| IndexError (msg : string)
| KeyError (key : string)
| EOFError
| TOMLDecodeError (msg : string)
| SystemExit (code : Z)
| KeyboardInterrupt.

(** All exceptions: the program's own [VaihdeError] (from [excs.py], a
    plain [Exception] subclass carrying a message), [CalledProcessError],
    which only [subprocess.run(check=True)] raises, and the rest. *)
Inductive exn :=
| VaihdeError (msg : string)
| CalledProcessError (returncode : Z) (stdout stderr : string)
| Builtin (e : pyexc).
Coercion Builtin : pyexc >-> exn.

Inductive result (A : Type) :=
| Ok (a : A)
| Raise (e : exn).
Arguments Ok {A} a.
Arguments Raise {A} e.

(** The result of a library call whose code is not part of the program: it
    returns, or throws one of Python's exceptions. *)
Inductive lib (A : Type) :=
| Returns (a : A)
| Throws (e : pyexc).
Arguments Returns {A} a.
Arguments Throws {A} e.

Definition of_lib {A} (r : lib A) : result A :=
  match r with
  | Returns a => Ok a
  | Throws e => Raise e
  end.

(** [bool(v)]. *)
Definition truthy (v : value) : bool :=
  match v with
  | TStr s => negb (String.eqb s "")
  | TInt n => negb (Z.eqb n 0)
  | TBool b => b
  | TFloat nz => nz
  | TDatetime _ => true
  | TArray l => match l with [] => false | _ => true end
  | TTable l => match l with [] => false | _ => true end
  end.

(** [d.get(k)] on a dict: the value of the first (and, in a parsed TOML
    table, only) entry for [k]. *)
Fixpoint dict_get (k : string) (d : list (string * value)) : option value :=
  match d with
  | [] => None
  | (k', v) :: rest => if String.eqb k k' then Some v else dict_get k rest
  end.

(** [k in d] on a dict. *)
Definition dict_has (k : string) (d : list (string * value)) : bool :=
  match dict_get k d with Some _ => true | None => false end.

(** [v == "s"] for a string [s]. *)
Definition eq_str (s : string) (v : value) : bool :=
  match v with TStr t => String.eqb s t | _ => false end.

(** [iter(v)], run to the end. *)
Definition iterate (v : value) : result (list value) :=
  match v with
  | TArray l => Ok l
  | TStr s => Ok (map TStr (PyStr.chars s))
  | TTable d => Ok (map (fun kv => TStr (fst kv)) d)
  | _ => Raise (TypeError "object is not iterable")
  end.

(** ["s" in v]. *)
Definition contains (s : string) (v : value) : result bool :=
  match v with
  | TTable d => Ok (dict_has s d)
  | TStr t => Ok (PyStr.contains s t)
  | TArray l => Ok (existsb (eq_str s) l)
  | _ => Raise (TypeError "argument is not iterable")
  end.

(** [v["s"]]. *)
Definition getitem (s : string) (v : value) : result value :=
  match v with
  | TTable d => match dict_get s d with
                | Some x => Ok x
                | None => Raise (KeyError s)
                end
  | TStr _ | TArray _ => Raise (TypeError "indices must be integers")
  | _ => Raise (TypeError "object is not subscriptable")
  end.

(** [v.get("s", default)]. *)
Definition get (s : string) (default : value) (v : value) : result value :=
  match v with
  | TTable d => Ok (match dict_get s d with Some x => x | None => default end)
  | _ => Raise (AttributeError "object has no attribute 'get'")
  end.

(** [str] arguments of [Path(...)] and [a / b]. *)
Definition as_path_str (v : value) : result string :=
  match v with
  | TStr s => Ok s
  | _ => Raise (TypeError "expected str, bytes or os.PathLike object")
  end.

(** State-and-exception monad: Python statements run in a world [W], and
    an exception leaves the world as it was when it was raised. *)
Definition M (W A : Type) : Type := W -> result A * W.

Definition ret {W A} (a : A) : M W A := fun w => (Ok a, w).

Definition raise {W A} (e : exn) : M W A := fun w => (Raise e, w).

Definition bind {W A B} (m : M W A) (k : A -> M W B) : M W B :=
  fun w => match m w with
           | (Ok a, w') => k a w'
           | (Raise e, w') => (Raise e, w')
           end.

Definition lift {W A} (r : result A) : M W A := fun w => (r, w).

(** [try: body except <handles>: handler]. *)
Definition try_except {W A} (body : M W A) (handles : exn -> bool)
    (handler : exn -> M W A) : M W A :=
  fun w => match body w with
           | (Ok a, w') => (Ok a, w')
           | (Raise e, w') => if handles e then handler e w' else (Raise e, w')
           end.

(** [for x in xs: body x]. *)
Fixpoint for_each {W A} (xs : list A) (body : A -> M W unit) : M W unit :=
  match xs with
  | [] => ret tt
  | x :: rest => bind (body x) (fun _ => for_each rest body)
  end.

Definition is_VaihdeError (e : exn) : bool :=
  match e with VaihdeError _ => true | _ => false end.
Definition is_CalledProcessError (e : exn) : bool :=
  match e with CalledProcessError _ _ _ => true | _ => false end.
Definition is_OSError (e : exn) : bool :=
  match e with Builtin (OSError _) => true | _ => false end.
Definition is_KeyboardInterrupt (e : exn) : bool :=
  match e with Builtin KeyboardInterrupt => true | _ => false end.

End Py.

Declare Scope py_scope.
Delimit Scope py_scope with py.
Notation "x <- m ;; k" := (Py.bind m (fun x => k))
  (at level 62, m at next level, right associativity) : py_scope.
Notation "m ;;; k" := (Py.bind m (fun _ => k))
  (at level 62, right associativity) : py_scope.

(** ** The operating system: filesystem, subprocesses, terminal, logging *)

Module OS.
Import Py PurePath.

Inductive node :=
| File (content : string) (mtime : Z)
| Dir.

(** What [subprocess.run] is asked to start. *)
Record ProcSpec := {
  argv : list string;
  use_shell : bool;
  cwd : Path;
}.

(** How the attempt ends: the child ran and exited, or starting it raised
    (for instance [FileNotFoundError] for a missing executable). *)
Inductive Outcome :=
| Exited (returncode : Z) (stdout stderr : string)
| NotLaunched (e : pyexc).

Inductive FsOp :=
| OpMkdir (p : Path)
| OpCopy2 (src dst : Path)
| OpWriteText (p : Path).

Inductive Level := DEBUG | INFO | WARNING | ERROR.

(** The observable actions of a run, oldest first. *)
Inductive Event :=
| EvSpawn (spec : ProcSpec)
| EvMkdir (p : Path)
| EvCopy2 (src dst : Path)
| EvWriteText (p : Path)
| EvLog (level : Level) (fmt : string) (args : list value)
| EvBasicConfig (level : Level)
| EvPrint (line : string).

(** What [argparse] hands back: [command], and for [new] the attributes
    [name] and [verbose]. *)
Record Namespace := {
  command : string;
  ns_name : option string;
  ns_verbose : option bool;
}.

Record World := {
  fs : gmap string node;
  stdin : list string;
  trace : list Event;
}.

(** Everything the program does not define itself.  The theorems hold for
    every [Env]. *)
Record Env := {
  (** [Path.cwd()]; [FileNotFoundError] (an [OSError]) when the working
      directory has been removed *)
  getcwd : lib Path;
  (** [Path.home()]; [RuntimeError] when no home directory is known *)
  home : lib Path;
  (** [p.resolve()]; [RuntimeError] on a symlink loop, [ValueError] on an
      embedded NUL *)
  resolve : Path -> lib Path;
  (** [p.expanduser()]; [RuntimeError] for an unknown user *)
  expanduser : Path -> lib Path;
  (** [tomllib.loads(text)]; the result is a dict *)
  tomllib_loads : string -> lib (list (string * value));
  (** [shlex.split(s)] *)
  shlex_split : string -> lib (list string);
  (** [argparse] on the command line *)
  argparse : list string -> lib Namespace;
  (** a child process: its outcome and what it leaves on disk *)
  spawn : ProcSpec -> gmap string node -> Outcome * gmap string node;
  (** failures the filesystem model does not derive by itself
      (permissions, I/O errors): the message and the disk left behind *)
  fs_fault : FsOp -> gmap string node -> option (string * gmap string node);
}.

Definition emit (ev : Event) : M World unit :=
  fun w => (Ok tt, {| fs := fs w; stdin := stdin w; trace := trace w ++ [ev] |}).

Definition set_fs (f : gmap string node) : M World unit :=
  fun w => (Ok tt, {| fs := f; stdin := stdin w; trace := trace w |}).

Definition get_fs : M World (gmap string node) := fun w => (Ok (fs w), w).

(** [logging]: one record per call, whatever the configured threshold. *)
Definition log (level : Level) (fmt : string) (args : list value) : M World unit :=
  emit (EvLog level fmt args).

Definition print (line : string) : M World unit := emit (EvPrint line).

(** [input(prompt)]. *)
Definition input (prompt : string) : M World string :=
  fun w => match stdin w with
           | [] => (Raise EOFError, w)
           | l :: rest =>
               (Ok l, {| fs := fs w; stdin := rest;
                         trace := trace w ++ [EvPrint prompt] |})
           end.

(** [p.exists()]. *)
Definition path_exists (f : gmap string node) (p : Path) : bool :=
  match f !! p with Some _ => true | None => false end.

Definition is_dir (f : gmap string node) (p : Path) : bool :=
  match f !! p with Some Dir => true | _ => false end.

Definition exists_ (p : Path) : M World bool :=
  fun w => (Ok (path_exists (fs w) p), w).

(** Directories created top-down; an existing directory is kept, an
    existing file on the way is an error. *)
Fixpoint make_dirs (ps : list Path) (f : gmap string node)
    : result unit * gmap string node :=
  match ps with
  | [] => (Ok tt, f)
  | p :: rest =>
      match f !! p with
      | Some Dir => make_dirs rest f
      | Some (File _ _) => (Raise (OSError ("File exists: " +:+ p)), f)
      | None => make_dirs rest (<[p := Dir]> f)
      end
  end.

(** [p.mkdir(parents=True, exist_ok=True)]. *)
Definition mkdir_parents (env : Env) (p : Path) : M World unit :=
  (emit (EvMkdir p) ;;;
   f <- get_fs ;;
   match fs_fault env (OpMkdir p) f with
   | Some (msg, f') => set_fs f' ;;; raise (OSError msg)
   | None =>
       let '(r, f') := make_dirs (ancestors p ++ [p]) f in
       set_fs f' ;;; lift r
   end)%py.

(** [shutil.copy2(src, dst)]: contents and timestamps. *)
Definition copy2 (env : Env) (src dst : Path) : M World unit :=
  (emit (EvCopy2 src dst) ;;;
   f <- get_fs ;;
   match fs_fault env (OpCopy2 src dst) f with
   | Some (msg, f') => set_fs f' ;;; raise (OSError msg)
   | None =>
       match f !! src with
       | Some (File content mtime) =>
           let target := if is_dir f dst then joinpath dst (name src) else dst in
           if String.eqb target src
           then raise (OSError "are the same file")
           else if is_dir f target
           then raise (OSError ("Is a directory: " +:+ target))
           else if is_dir f (parent target)
           then set_fs (<[target := File content mtime]> f)
           else raise (OSError ("No such file or directory: " +:+ target))
       | Some Dir => raise (OSError ("Is a directory: " +:+ src))
       | None => raise (OSError ("No such file or directory: " +:+ src))
       end
   end)%py.

(** [p.read_text()]. *)
Definition read_text (p : Path) : M World string :=
  fun w => match fs w !! p with
           | Some (File content _) => (Ok content, w)
           | Some Dir => (Raise (OSError ("Is a directory: " +:+ p)), w)
           | None => (Raise (OSError ("No such file or directory: " +:+ p)), w)
           end.

(** [p.write_text(text)]. *)
Definition write_text (env : Env) (p : Path) (text : string) : M World unit :=
  (emit (EvWriteText p) ;;;
   f <- get_fs ;;
   match fs_fault env (OpWriteText p) f with
   | Some (msg, f') => set_fs f' ;;; raise (OSError msg)
   | None =>
       if is_dir f p then raise (OSError ("Is a directory: " +:+ p))
       else if is_dir f (parent p)
       then set_fs (<[p := File text 0%Z]> f)
       else raise (OSError ("No such file or directory: " +:+ p))
   end)%py.

Record CompletedProcess := {
  returncode : Z;
  stdout : string;
  stderr : string;
}.

(** [subprocess.run(argv, cwd=cwd, shell=shell, check=check)].  With
    [check], a non-zero exit status raises [CalledProcessError]. *)
Definition subprocess_run (env : Env) (args : list string) (dir : Path)
    (sh check : bool) : M World CompletedProcess :=
  (let spec := {| argv := args; use_shell := sh; cwd := dir |} in
   emit (EvSpawn spec) ;;;
   f <- get_fs ;;
   let '(out, f') := spawn env spec f in
   set_fs f' ;;;
   match out with
   | NotLaunched e => raise e
   | Exited rc so se =>
       if check && negb (Z.eqb rc 0)
       then raise (CalledProcessError rc so se)
       else ret {| returncode := rc; stdout := so; stderr := se |}
   end)%py.

End OS.

(** ** The dataclasses of [config.py] *)

Module Types.
Import Py PurePath.

(** [PostCommand].  The fields hold what the configuration file gave:
    [load_config] stores the parsed values without checking their types. *)
Record PostCommand := {
  run : value;
  shell : value;
}.

(** [VaihdeConfig]. *)
Record VaihdeConfig := {
  worktree_root : Path;
  copy_files : value;
  post_commands : list PostCommand;
}.

End Types.

(** ** [ops.py] *)

Module Ops.
Import Py PurePath OS Types.

Section WithEnv.
Variable env : Env.

Definition get_git_root (path : option Path) : M World Path :=
  (path <- match path with
           | None => lift (of_lib (getcwd env))
           | Some p => ret p
           end ;;
   result <- try_except
     (subprocess_run env ["git"; "rev-parse"; "--show-toplevel"] path false true)
     is_CalledProcessError
     (fun _ => raise (VaihdeError ("Not a git repository: " +:+ path))) ;;
   ret (of_str (PyStr.strip (stdout result))))%py.

Definition _branch_exists (repo_root : Path) (branch : string) : M World bool :=
  (result <- subprocess_run env
     ["git"; "show-ref"; "--verify"; "--quiet"; "refs/heads/" +:+ branch]
     repo_root false false ;;
   ret (Z.eqb (returncode result) 0))%py.

Definition create_worktree (repo_root target : Path) (name : string) : M World Path :=
  (let worktree_path := joinpath target name in
   taken <- exists_ worktree_path ;;
   if taken
   then raise (VaihdeError ("Worktree directory already exists: " +:+ worktree_path))
   else
     branch <- _branch_exists repo_root name ;;
     if branch
     then raise (VaihdeError ("Branch already exists: " +:+ name))
     else
       mkdir_parents env target ;;;
       try_except
         (subprocess_run env ["git"; "worktree"; "add"; "-b"; name; worktree_path]
            repo_root false true ;;; ret tt)
         is_CalledProcessError
         (fun e => match e with
                   | CalledProcessError _ _ err =>
                       raise (VaihdeError ("Failed to create worktree: " +:+ PyStr.strip err))
                   | _ => raise e
                   end) ;;;
       ret worktree_path)%py.

Definition exn_text (e : exn) : value :=
  match e with Builtin (OSError msg) => TStr msg | _ => TStr "" end.

(** The body of the loop of [copy_files]. *)
Definition copy_file (src_dir dst_dir : Path) (filename : value) : M World unit :=
  (fname <- lift (as_path_str filename) ;;
   let src := joinpath src_dir fname in
   let dst := joinpath dst_dir fname in
   try_except
     (found <- exists_ src ;;
      if negb found
      then log INFO "Skipping %s (not found in source)" [filename]
      else
        mkdir_parents env (parent dst) ;;;
        copy2 env src dst ;;;
        log DEBUG "Copied %s" [filename])
     is_OSError
     (fun e => log WARNING "Failed to copy %s: %s" [filename; exn_text e]))%py.

Definition copy_files (src_dir dst_dir : Path) (files : value) : M World unit :=
  (items <- lift (iterate files) ;;
   for_each items (copy_file src_dir dst_dir))%py.

(** [args] of [subprocess.run(args, shell=True)]: a string is the command
    line, anything else is listed and must hold strings. *)
Definition shell_args (v : value) : result (list string) :=
  match v with
  | TStr s => Ok [s]
  | _ => match iterate v with
         | Raise e => Raise e
         | Ok items =>
             fold_right (fun item acc =>
                           match as_path_str item, acc with
                           | Ok s, Ok l => Ok (s :: l)
                           | Raise e, _ => Raise e
                           | _, Raise e => Raise e
                           end) (Ok []) items
         end
  end.

(** [shlex.split(v)]. *)
Definition split_args (v : value) : result (list string) :=
  match v with
  | TStr s => of_lib (shlex_split env s)
  | _ => Raise (AttributeError "object has no attribute 'read'")
  end.

(** The body of the loop of [run_commands].  [args] is the argument
    vector handed to the child: [cmd.run] itself under a shell, its
    [shlex.split] otherwise. *)
Definition run_command (dir : Path) (cmd : PostCommand) : M World unit :=
  (log DEBUG "Running: %s" [run cmd] ;;;
   args <- lift (if truthy (shell cmd) then shell_args (run cmd)
                 else split_args (run cmd)) ;;
   result <- subprocess_run env args dir (truthy (shell cmd)) false ;;
   if negb (Z.eqb (returncode result) 0)
   then
     log WARNING "Command failed with exit code %d" [TInt (returncode result)] ;;;
     if negb (String.eqb (stderr result) "")
     then log WARNING "  %s" [TStr (PyStr.strip (stderr result))]
     else ret tt
   else ret tt)%py.

Definition run_commands (dir : Path) (commands : list PostCommand) : M World unit :=
  for_each commands (run_command dir).

Definition list_worktrees (repo_root : Path) : M World unit :=
  try_except
    (subprocess_run env ["git"; "worktree"; "list"] repo_root false true ;;; ret tt)%py
    is_CalledProcessError
    (fun _ => raise (VaihdeError "Failed to list worktrees")).

End WithEnv.
End Ops.

(** ** [config.py] *)

Module Config.
Import Py PurePath OS Types.

(** The string part of [mangle_path], on [str(path.resolve())]. *)
Definition mangle_str (s : string) : string :=
  PyStr.replace PyStr.slash "__" (PyStr.lstrip "/" s) +:+ ".toml".

Section WithEnv.
Variable env : Env.

Definition mangle_path (path : Path) : result string :=
  match resolve env path with
  | Returns path => Ok (mangle_str path)
  | Throws e => Raise e
  end.

(** [Path.home()] is evaluated before [mangle_path(git_root)]. *)
Definition get_global_config_path (git_root : Path) : result Path :=
  match home env with
  | Returns h =>
      match mangle_path git_root with
      | Ok mangled => Ok (joinpath (joinpath (joinpath h ".config") "vaihde") mangled)
      | Raise e => Raise e
      end
  | Throws e => Raise e
  end.

Definition get_local_config_path (git_root : Path) : Path :=
  joinpath git_root "vaihde.toml".

Definition find_config (start_dir : option Path) : M World (option Path) :=
  (start_dir <- match start_dir with
                | None => lift (of_lib (getcwd env))
                | Some d => ret d
                end ;;
   start_dir <- lift (of_lib (resolve env start_dir)) ;;
   found <- try_except
     (git_root <- Ops.get_git_root env (Some start_dir) ;; ret (Some git_root))
     is_VaihdeError
     (fun _ => ret None) ;;
   match found with
   | None => ret None
   | Some git_root =>
       global_config <- lift (get_global_config_path git_root) ;;
       global_found <- exists_ global_config ;;
       if global_found then ret (Some global_config)
       else
         let local_config := get_local_config_path git_root in
         local_found <- exists_ local_config ;;
         if local_found then ret (Some local_config)
         else ret None
   end)%py.

(** One round of the loop over [post_commands] in [load_config]. *)
Definition parse_post_command (path : Path) (cmd_data : value) : result PostCommand :=
  match contains "run" cmd_data with
  | Raise e => Raise e
  | Ok false => Raise (VaihdeError ("Post command missing 'run' field in " +:+ path))
  | Ok true =>
      match getitem "run" cmd_data with
      | Raise e => Raise e
      | Ok r =>
          match get "shell" (TBool false) cmd_data with
          | Raise e => Raise e
          | Ok sh => Ok {| run := r; shell := sh |}
          end
      end
  end.

Fixpoint parse_post_commands (path : Path) (items : list value)
    : result (list PostCommand) :=
  match items with
  | [] => Ok []
  | cmd_data :: rest =>
      match parse_post_command path cmd_data with
      | Raise e => Raise e
      | Ok cmd =>
          match parse_post_commands path rest with
          | Raise e => Raise e
          | Ok cmds => Ok (cmd :: cmds)
          end
      end
  end.

Definition get_or (k : string) (default : value) (d : list (string * value)) : value :=
  match dict_get k d with Some v => v | None => default end.

(** [load_config] once the file is parsed. *)
Definition config_of_data (path : Path) (data : list (string * value))
    : result VaihdeConfig :=
  match dict_get "worktree_root" data with
  | None => Raise (VaihdeError ("Missing required 'worktree_root' in " +:+ path))
  | Some root =>
      match as_path_str root with
      | Raise e => Raise e
      | Ok s =>
          match expanduser env (of_str s) with
          | Throws e => Raise e
          | Returns expanded =>
              match resolve env expanded with
              | Throws e => Raise e
              | Returns worktree_root =>
                  match get "files" (TArray []) (get_or "copy" (TTable []) data) with
                  | Raise e => Raise e
                  | Ok files =>
                      match iterate (get_or "post_commands" (TArray []) data) with
                      | Raise e => Raise e
                      | Ok items =>
                          match parse_post_commands path items with
                          | Raise e => Raise e
                          | Ok cmds =>
                              Ok {| worktree_root := worktree_root;
                                    copy_files := files;
                                    post_commands := cmds |}
                          end
                      end
                  end
              end
          end
      end
  end.

Definition load_config (path : Path) : M World VaihdeConfig :=
  (text <- read_text path ;;
   data <- lift (of_lib (tomllib_loads env text)) ;;
   lift (config_of_data path data))%py.

End WithEnv.
End Config.

(** ** [cli.py] *)

Module Cli.
Import Py PurePath OS Types.

Definition dq : string := String (ascii_of_nat 34) EmptyString.

(** [CONFIG_TEMPLATE.format(worktree_root=...)]. *)
Definition CONFIG_TEMPLATE (worktree_root : string) : string :=
  "# Vaihde configuration

# Root directory for new worktrees (required)
worktree_root = " +:+ dq +:+ worktree_root +:+ dq +:+ "

# Files to copy from the main worktree (optional)
# [copy]
# files = [" +:+ dq +:+ ".env" +:+ dq +:+ ", " +:+ dq +:+ ".env.local" +:+ dq +:+ "]

# Commands to run after creating a worktree (optional)
# [[post_commands]]
# run = " +:+ dq +:+ "uv sync" +:+ dq +:+ "
#
# [[post_commands]]
# run = " +:+ dq +:+ "npm install" +:+ dq +:+ "
# shell = true
".

Section WithEnv.
Variable env : Env.

Definition setup_logging (verbose : bool) : M World unit :=
  emit (EvBasicConfig (if verbose then DEBUG else INFO)).

Definition parse_args (argv : list string) : M World Namespace :=
  lift (of_lib (argparse env argv)).

Definition cmd_new (name : string) : M World Z :=
  (git_root <- Ops.get_git_root env None ;;
   log DEBUG "Git root: %s" [TStr git_root] ;;;
   config_path <- Config.find_config env None ;;
   match config_path with
   | None =>
       global_path <- lift (Config.get_global_config_path env git_root) ;;
       log ERROR "No vaihde.toml config found" [] ;;;
       log ERROR "Create vaihde.toml in your git repo, or: %s" [TStr global_path] ;;;
       ret 1%Z
   | Some config_path =>
       log DEBUG "Using config: %s" [TStr config_path] ;;;
       config <- Config.load_config env config_path ;;
       log DEBUG "Creating worktree '%s' in %s"
         [TStr name; TStr (worktree_root config)] ;;;
       worktree_path <- Ops.create_worktree env git_root (worktree_root config) name ;;
       log INFO "Created worktree: %s" [TStr worktree_path] ;;;
       (if truthy (copy_files config)
        then log DEBUG "Copying files..." [] ;;;
             Ops.copy_files env git_root worktree_path (copy_files config)
        else ret tt) ;;;
       (match post_commands config with
        | [] => ret tt
        | _ => log DEBUG "Running post-commands..." [] ;;;
               Ops.run_commands env worktree_path (post_commands config)
        end) ;;;
       ret 0%Z
   end)%py.

Definition cmd_list : M World Z :=
  (git_root <- Ops.get_git_root env None ;;
   Ops.list_worktrees env git_root ;;;
   ret 0%Z)%py.

Definition cmd_config_path : M World Z :=
  (git_root <- Ops.get_git_root env None ;;
   p <- lift (Config.get_global_config_path env git_root) ;;
   print p ;;;
   ret 0%Z)%py.

Definition cmd_init : M World Z :=
  (git_root <- Ops.get_git_root env None ;;
   let local_path := Config.get_local_config_path git_root in
   global_path <- lift (Config.get_global_config_path env git_root) ;;
   existing <- Config.find_config env None ;;
   match existing with
   | Some existing =>
       log ERROR "Config already exists: %s" [TStr existing] ;;;
       ret 1%Z
   | None =>
       print "Where should the config be created?" ;;;
       print ("  [1] Local:  " +:+ local_path) ;;;
       print ("  [2] Global: " +:+ global_path) ;;;
       choice <- input "Choice [1]: " ;;
       let config_path :=
         if String.eqb (PyStr.strip choice) "2" then global_path else local_path in
       let default_root := "~/worktrees/" +:+ name git_root in
       answer <- input ("Worktree root [" +:+ default_root +:+ "]: ") ;;
       let worktree_root :=
         if String.eqb (PyStr.strip answer) "" then default_root
         else PyStr.strip answer in
       mkdir_parents env (parent config_path) ;;;
       write_text env config_path (CONFIG_TEMPLATE worktree_root) ;;;
       print ("Created: " +:+ config_path) ;;;
       ret 0%Z
   end)%py.

Definition exn_message (e : exn) : value :=
  match e with VaihdeError msg => TStr msg | _ => TStr "" end.

Definition run (argv : list string) : M World Z :=
  try_except
    (args <- parse_args argv ;;
     setup_logging (match ns_verbose args with Some v => v | None => false end) ;;;
     if String.eqb (command args) "new"
     then match ns_name args with
          | Some name => cmd_new name
          | None => raise (AttributeError "name")
          end
     else if String.eqb (command args) "list" then cmd_list
     else if String.eqb (command args) "config-path" then cmd_config_path
     else if String.eqb (command args) "init" then cmd_init
     else log ERROR "Unknown command: %s" [TStr (command args)] ;;; ret 1%Z)%py
    (fun e => is_VaihdeError e || is_KeyboardInterrupt e)
    (fun e => match e with
              | Builtin KeyboardInterrupt =>
                  (log INFO (String (ascii_of_nat 10) "Interrupted") [] ;;; ret 130%Z)%py
              | _ => (log ERROR "Error: %s" [exn_message e] ;;; ret 1%Z)%py
              end).

End WithEnv.
End Cli.

(** ** A concrete machine, for evaluating the program *)

Module Scenario.
Import Py PurePath OS Types.

Fixpoint argv_eqb (a b : list string) : bool :=
  match a, b with
  | [], [] => true
  | x :: a', y :: b' => String.eqb x y && argv_eqb a' b'
  | _, _ => false
  end.

(** A stand-in for git and a few shell commands: the repository is
    [/repo], its only branch is [main], and adding a worktree named
    [broken] fails. *)
Definition machine (spec : ProcSpec) (f : gmap string node)
    : Outcome * gmap string node :=
  match argv spec with
  | [a; b; c] =>
      if argv_eqb [a; b; c] ["git"; "rev-parse"; "--show-toplevel"]
      then if PyStr.startswith "/repo" (cwd spec)
           then (Exited 0 ("/repo" +:+ String (ascii_of_nat 10) "") "", f)
           else (Exited 128 "" "fatal: not a git repository", f)
      else (Exited 0 "" "", f)
  | [a; b; c; d; ref] =>
      if argv_eqb [a; b; c; d] ["git"; "show-ref"; "--verify"; "--quiet"]
      then if String.eqb ref "refs/heads/main"
           then (Exited 0 "" "", f) else (Exited 1 "" "", f)
      else (Exited 0 "" "", f)
  | [a; b; c; d; name; path] =>
      if argv_eqb [a; b; c; d] ["git"; "worktree"; "add"; "-b"]
      then if String.eqb name "broken"
           then (Exited 128 "" "fatal: invalid reference", f)
           else (Exited 0 "" "", <[path := Dir]> f)
      else (Exited 0 "" "", f)
  | [cmd] =>
      if String.eqb cmd "false" then (Exited 1 "" "boom", f)
      else if String.eqb cmd "nosuchprogram"
      then (NotLaunched (OSError "No such file or directory: nosuchprogram"), f)
      else (Exited 0 "" "", f)
  | _ => (Exited 0 "" "", f)
  end.

(** The environment: no symlinks, every path resolves, every user known,
    the configuration file parses to [data], no injected filesystem fault
    except that nothing can be created under [/readonly]. *)
Definition env_with (data : list (string * value)) : Env := {|
  getcwd := Returns "/repo";
  home := Returns "/home/u";
  resolve := fun p => Returns p;
  expanduser := fun p => Returns p;
  tomllib_loads := fun _ => Returns data;
  shlex_split := fun s => Returns (filter (fun p => negb (String.eqb p ""))
                                (split_on " "%char EmptyString s));
  argparse := fun argv =>
    match argv with
    | [c; n] => Returns {| command := c; ns_name := Some n; ns_verbose := Some false |}
    | [c] => Returns {| command := c; ns_name := None; ns_verbose := None |}
    | _ => Throws (SystemExit 2)
    end;
  spawn := machine;
  fs_fault := fun op f =>
    match op with
    | OpCopy2 _ dst =>
        if PyStr.startswith "/readonly" dst
        then Some ("Permission denied: " +:+ dst, f) else None
    | _ => None
    end;
|}.

Definition no_data : list (string * value) := [].

Definition minimal_data : list (string * value) :=
  [("worktree_root", TStr "/wt")].

Definition full_data : list (string * value) :=
  [("worktree_root", TStr "/wt");
   ("copy", TTable [("files", TArray [TStr ".env"; TStr "missing.txt"])]);
   ("post_commands",
    TArray [TTable [("run", TStr "false")];
            TTable [("run", TStr "true"); ("shell", TBool true)]])].

(** [worktree_root = 5] together with a post-command that has no [run]. *)
Definition untyped_data : list (string * value) :=
  [("worktree_root", TInt 5);
   ("post_commands", TArray [TTable []])].

Definition disk (entries : list (string * node)) : gmap string node :=
  list_to_map entries.

Definition base_entries : list (string * node) :=
  [("/", Dir); ("/repo", Dir); ("/repo/.env", File "SECRET=123" 7);
   ("/home", Dir); ("/home/u", Dir)].

Definition world_of (entries : list (string * node)) : World :=
  {| fs := disk entries; stdin := []; trace := [] |}.

(** A repository without any configuration file. *)
Definition bare : World := world_of base_entries.

(** A repository with a local configuration file. *)
Definition with_local : World :=
  world_of (("/repo/vaihde.toml", File "cfg" 1) :: base_entries).

(** A repository with both a global and a local configuration file. *)
Definition with_both : World :=
  world_of (("/home/u/.config/vaihde/repo.toml", File "cfg" 2)
            :: ("/repo/vaihde.toml", File "cfg" 1) :: base_entries).

End Scenario.

(** ** Vocabulary for the statements about [ops.py], [config.py], [cli.py] *)

Module Spec.
Import Py PurePath OS Types.

(** The three git commands the program issues. *)
Definition git_rev_parse (dir : Path) : ProcSpec :=
  {| argv := ["git"; "rev-parse"; "--show-toplevel"]; use_shell := false; cwd := dir |}.

Definition git_show_ref (repo_root : Path) (branch : string) : ProcSpec :=
  {| argv := ["git"; "show-ref"; "--verify"; "--quiet"; "refs/heads/" +:+ branch];
     use_shell := false; cwd := repo_root |}.

Definition git_worktree_add (repo_root : Path) (name : string) (worktree_path : Path)
    : ProcSpec :=
  {| argv := ["git"; "worktree"; "add"; "-b"; name; worktree_path];
     use_shell := false; cwd := repo_root |}.

(** The error taxonomy of the specification; in the code each is a
    [VaihdeError] with its own message. *)
Definition NotAGitRepository (dir : Path) : exn :=
  VaihdeError ("Not a git repository: " +:+ dir).
Definition WorktreeExists (worktree_path : Path) : exn :=
  VaihdeError ("Worktree directory already exists: " +:+ worktree_path).
Definition BranchExists (name : string) : exn :=
  VaihdeError ("Branch already exists: " +:+ name).
Definition WorktreeCreationFailed (err : string) : exn :=
  VaihdeError ("Failed to create worktree: " +:+ err).

(** The directory a call is about: the one given, or [Path.cwd()]. *)
Definition dir_of (env : Env) (path : option Path) : lib Path :=
  match path with None => getcwd env | Some p => Returns p end.

(** The directory [find_config] asks git about: the start directory,
    resolved. *)
Definition start_of (env : Env) (start_dir : option Path) : lib Path :=
  match dir_of env start_dir with
  | Returns d => resolve env d
  | Throws e => Throws e
  end.

(** The world after a child process, a [mkdir] and a log call. *)
Definition spawned (spec : ProcSpec) (f : gmap string node) (w : World) : World :=
  {| fs := f; stdin := stdin w; trace := trace w ++ [EvSpawn spec] |}.

Definition made (p : Path) (f : gmap string node) (w : World) : World :=
  {| fs := f; stdin := stdin w; trace := trace w ++ [EvMkdir p] |}.

Definition logged (level : Level) (fmt : string) (args : list value) (w : World) : World :=
  {| fs := fs w; stdin := stdin w; trace := trace w ++ [EvLog level fmt args] |}.

(** The child processes among some events. *)
Definition spawn_of (ev : Event) : option ProcSpec :=
  match ev with EvSpawn spec => Some spec | _ => None end.

(** The log record that closes the handling of one entry of [copy_files]:
    skipped, copied, or failed. *)
Definition copy_report (ev : Event) : option value :=
  match ev with
  | EvLog INFO fmt [f] =>
      if String.eqb fmt "Skipping %s (not found in source)" then Some f else None
  | EvLog DEBUG fmt [f] =>
      if String.eqb fmt "Copied %s" then Some f else None
  | EvLog WARNING fmt [f; _] =>
      if String.eqb fmt "Failed to copy %s: %s" then Some f else None
  | _ => None
  end.

(** An event that belongs to creating a worktree or filling it: a change of
    the disk by the program, or a git command other than [rev-parse]. *)
Definition touches_worktree (ev : Event) : bool :=
  match ev with
  | EvMkdir _ | EvCopy2 _ _ | EvWriteText _ => true
  | EvSpawn spec =>
      negb (Scenario.argv_eqb (argv spec) ["git"; "rev-parse"; "--show-toplevel"])
  | _ => false
  end.

(** A post-command as [load_config] builds it from a table with a string
    [run] and a boolean [shell]. *)
Definition post_command (c : string * bool) : PostCommand :=
  {| run := TStr (fst c); shell := TBool (snd c) |}.

(** The process [run_commands] starts for a post-command in [dir]. *)
Definition command_spec (env : Env) (dir : Path) (c : string * bool) : option ProcSpec :=
  if snd c then Some {| argv := [fst c]; use_shell := true; cwd := dir |}
  else match shlex_split env (fst c) with
       | Returns l => Some {| argv := l; use_shell := false; cwd := dir |}
       | Throws _ => None
       end.


Definition is_table (v : value) : bool :=
  match v with TTable _ => true | _ => false end.

(** The shape the configuration format prescribes: [worktree_root] a
    string, [copy] a table, [post_commands] an array of tables (each where
    present). *)
Definition well_typed (data : list (string * value)) : bool :=
  match dict_get "worktree_root" data with
  | Some (TStr _) | None => true
  | Some _ => false
  end &&
  match dict_get "copy" data with
  | Some (TTable _) | None => true
  | Some _ => false
  end &&
  match dict_get "post_commands" data with
  | Some (TArray items) => forallb is_table items
  | None => true
  | Some _ => false
  end.

Definition entries (data : list (string * value)) : list value :=
  match dict_get "post_commands" data with
  | Some (TArray items) => items
  | _ => []
  end.

Definition lacks (k : string) (v : value) : bool :=
  match v with
  | TTable d => negb (dict_has k d)
  | _ => false
  end.

(** The parsed data lacks [worktree_root], or some entry of
    [post_commands] lacks [run]. *)
Definition incomplete (data : list (string * value)) : bool :=
  negb (dict_has "worktree_root" data) || existsb (lacks "run") (entries data).

(** The post-command an entry stands for: its [run], and its [shell] or
    false when it has none. *)
Definition expected_command (v : value) : PostCommand :=
  match v with
  | TTable d => {| run := Config.get_or "run" (TStr "") d;
                   shell := Config.get_or "shell" (TBool false) d |}
  | _ => {| run := TStr ""; shell := TBool false |}
  end.

(** [copy.files], or the empty list when there is none. *)
Definition expected_files (data : list (string * value)) : value :=
  match dict_get "copy" data with
  | Some (TTable d) => Config.get_or "files" (TArray []) d
  | _ => TArray []
  end.

(** Reading a mangled name back: a double underscore is a separator. *)
Fixpoint unmangle (s : string) : string :=
  match s with
  | EmptyString => EmptyString
  | String c rest =>
      if Ascii.eqb c PyStr.underscore
      then match rest with
           | String d rest' =>
               if Ascii.eqb d PyStr.underscore
               then String PyStr.slash (unmangle rest')
               else String c (unmangle rest)
           | EmptyString => String c EmptyString
           end
      else String c (unmangle rest)
  end.

(** No underscore of [s] is directly followed by an underscore or by a
    separator. *)
Fixpoint tidy (s : string) : bool :=
  match s with
  | EmptyString => true
  | String c rest =>
      (if Ascii.eqb c PyStr.underscore
       then match rest with
            | String d _ =>
                negb (Ascii.eqb d PyStr.underscore) && negb (Ascii.eqb d PyStr.slash)
            | EmptyString => true
            end
       else true)
      && tidy rest
  end.

(** The path string starts with exactly one separator. *)
Definition single_root (s : string) : bool :=
  PyStr.startswith "/" s && negb (PyStr.startswith "//" s).

End Spec.

(** ** Concrete worlds and runs, for evaluating the statements *)

Module Runs.
Import Py PurePath OS Types Spec.

(** A disk on which the worktree directory [/wt/main] is already there. *)
Definition taken_dir : World :=
  Scenario.world_of (("/wt", Dir) :: ("/wt/main", Dir) :: Scenario.base_entries).

(** A worktree root in which nothing can be written. *)
Definition readonly_root : World :=
  Scenario.world_of (("/readonly", Dir) :: Scenario.base_entries).






End Runs.

(** ** Further vocabulary: the rest of [ops.py], [config.py] and [cli.py] *)

Module SpecMore.
Import Py PurePath OS Types Spec.

(** [git worktree list], as [list_worktrees] runs it. *)
Definition git_worktree_list (repo_root : Path) : ProcSpec :=
  {| argv := ["git"; "worktree"; "list"]; use_shell := false; cwd := repo_root |}.

(** [s] does not start with whitespace. *)
Definition clean (s : string) : bool :=
  match s with
  | EmptyString => true
  | String c _ => negb (PyStr.mem c PyStr.whitespace)
  end.

(** A path segment: not empty, no separator in it. *)
Definition segment_ok (s : string) : bool :=
  negb (PyStr.mem PyStr.slash s) && negb (String.eqb s "").

(** The namespace names one of the four subcommands ([new] with its
    [name]). *)
Definition is_subcommand (ns : Namespace) : bool :=
  (String.eqb (command ns) "new"
   && match ns_name ns with Some _ => true | None => false end)
  || String.eqb (command ns) "list"
  || String.eqb (command ns) "config-path"
  || String.eqb (command ns) "init".

(** The level [setup_logging] sets for the namespace. *)
Definition verbosity (ns : Namespace) : Level :=
  if match ns_verbose ns with Some v => v | None => false end then DEBUG else INFO.

(** The world after [setup_logging]. *)
Definition configured (level : Level) (w : World) : World :=
  {| fs := fs w; stdin := stdin w; trace := trace w ++ [EvBasicConfig level] |}.

(** The world after the questions of [cmd_init] were asked and answered. *)
Definition asked (local_path global_path default_root : string) (rest : list string)
    (w : World) : World :=
  {| fs := fs w; stdin := rest;
     trace := trace w ++
       [EvPrint "Where should the config be created?";
        EvPrint ("  [1] Local:  " +:+ local_path);
        EvPrint ("  [2] Global: " +:+ global_path);
        EvPrint "Choice [1]: ";
        EvPrint ("Worktree root [" +:+ default_root +:+ "]: ")] |}.

(** The world after [print]. *)
Definition printed (line : string) (w : World) : World :=
  {| fs := fs w; stdin := stdin w; trace := trace w ++ [EvPrint line] |}.

(** What [run_command] leaves for a command that exited with [rc] and wrote
    [err] to its standard error. *)
Definition reported (spec : ProcSpec) (f : gmap string node) (rc : Z) (err : string)
    (w : World) : World :=
  if Z.eqb rc 0 then spawned spec f w
  else
    let w1 := logged WARNING "Command failed with exit code %d" [TInt rc]
                (spawned spec f w) in
    if String.eqb err "" then w1
    else logged WARNING "  %s" [TStr (PyStr.strip err)] w1.

End SpecMore.

Module RunsMore.
Import Py PurePath OS Types Spec SpecMore.

(** The machine of [Scenario], started in directory [dir]. *)
Definition env_in (dir : Path) (data : list (string * value)) : Env := {|
  getcwd := Returns dir;
  home := home (Scenario.env_with data);
  resolve := resolve (Scenario.env_with data);
  expanduser := expanduser (Scenario.env_with data);
  tomllib_loads := tomllib_loads (Scenario.env_with data);
  shlex_split := shlex_split (Scenario.env_with data);
  argparse := argparse (Scenario.env_with data);
  spawn := spawn (Scenario.env_with data);
  fs_fault := fs_fault (Scenario.env_with data);
|}.

(** A machine on which the user interrupts every child process. *)
Definition interrupted_env : Env := {|
  getcwd := Returns "/repo";
  home := home (Scenario.env_with Scenario.no_data);
  resolve := resolve (Scenario.env_with Scenario.no_data);
  expanduser := expanduser (Scenario.env_with Scenario.no_data);
  tomllib_loads := tomllib_loads (Scenario.env_with Scenario.no_data);
  shlex_split := shlex_split (Scenario.env_with Scenario.no_data);
  argparse := argparse (Scenario.env_with Scenario.no_data);
  spawn := fun _ f => (NotLaunched KeyboardInterrupt, f);
  fs_fault := fs_fault (Scenario.env_with Scenario.no_data);
|}.

(** A machine on which everything under [/loop] is a symlink loop, and a
    path with a NUL in it cannot be resolved either. *)
Definition looping_env (data : list (string * value)) : Env := {|
  getcwd := getcwd (Scenario.env_with data);
  home := home (Scenario.env_with data);
  resolve := fun p =>
    if PyStr.mem (ascii_of_nat 0) p then Throws (ValueError "embedded null byte")
    else if PyStr.startswith "/loop" p
    then Throws (RuntimeError ("Symlink loop from " +:+ p))
    else Returns p;
  expanduser := expanduser (Scenario.env_with data);
  tomllib_loads := tomllib_loads (Scenario.env_with data);
  shlex_split := shlex_split (Scenario.env_with data);
  argparse := argparse (Scenario.env_with data);
  spawn := spawn (Scenario.env_with data);
  fs_fault := fs_fault (Scenario.env_with data);
|}.

(** The bare repository with the answers [2] and an empty line typed in. *)
Definition answering : World :=
  {| fs := fs Scenario.bare; stdin := ["2"; ""]; trace := [] |}.

End RunsMore.

(** * Properties *)

(** ** Strings *)

Module PyStrFacts.
Import PyStr.

Lemma append_nil_l (s : string) : "" +:+ s = s.
Proof. reflexivity. Qed.

Lemma append_cons (c : ascii) (s t : string) :
  String c s +:+ t = String c (s +:+ t).
Proof. reflexivity. Qed.

(** [String.append] does not unfold under [simpl] here; these two
    equations do the work. *)
Ltac ssimpl := simpl; rewrite ?append_cons, ?append_nil_l; simpl.

Lemma append_nil_r (s : string) : s +:+ "" = s.
Proof. induction s as [|c s IH]; ssimpl; [reflexivity | now rewrite IH]. Qed.

Lemma append_assoc (a b c : string) : (a +:+ b) +:+ c = a +:+ (b +:+ c).
Proof. induction a as [|x a IH]; ssimpl; [reflexivity | now rewrite IH]. Qed.

Lemma length_append (a b : string) :
  String.length (a +:+ b) = String.length a + String.length b.
Proof. induction a as [|x a IH]; ssimpl; [reflexivity | now rewrite IH]. Qed.

(** A common suffix can be cancelled. *)
Lemma append_inv_tail (a b c : string) : a +:+ c = b +:+ c -> a = b.
Proof.
  revert b; induction a as [|x a IH]; intros [|y b] H;
    rewrite ?append_cons, ?append_nil_l in H.
  - reflexivity.
  - apply (f_equal String.length) in H; simpl in H.
    rewrite length_append in H; lia.
  - apply (f_equal String.length) in H; simpl in H.
    rewrite length_append in H; lia.
  - injection H as -> H. f_equal. now apply IH.
Qed.

Lemma rev_acc_spec (s acc : string) : rev_acc s acc = rev s +:+ acc.
Proof.
  unfold rev; revert acc; induction s as [|c s IH]; intros acc; simpl.
  - reflexivity.
  - rewrite IH, (IH (String c "")), append_assoc. reflexivity.
Qed.

Lemma rev_cons (c : ascii) (s : string) : rev (String c s) = rev s +:+ String c "".
Proof. unfold rev at 1; simpl. apply rev_acc_spec. Qed.

Lemma rev_append (a b : string) : rev (a +:+ b) = rev b +:+ rev a.
Proof.
  induction a as [|c a IH]; rewrite ?append_cons, ?append_nil_l.
  - change (rev "") with "". now rewrite append_nil_r.
  - rewrite !rev_cons, IH, append_assoc. reflexivity.
Qed.

Lemma startswith_append (p s : string) : startswith p (p +:+ s) = true.
Proof.
  induction p as [|c p IH]; ssimpl; [reflexivity|].
  now rewrite Ascii.eqb_refl, IH.
Qed.

Lemma endswith_append (s p : string) : endswith p (s +:+ p) = true.
Proof. unfold endswith. rewrite rev_append. apply startswith_append. Qed.

Lemma mem_append (c : ascii) (a b : string) :
  mem c (a +:+ b) = mem c a || mem c b.
Proof.
  induction a as [|x a IH]; ssimpl; [reflexivity|].
  now rewrite IH, orb_assoc.
Qed.

(** After [replace old new], [old] occurs only if [new] brings it back. *)
Lemma mem_replace (old : ascii) (new s : string) :
  mem old new = false -> mem old (replace old new s) = false.
Proof.
  intros Hnew; induction s as [|c s IH]; simpl; [reflexivity|].
  destruct (Ascii.eqb c old) eqn:E.
  - now rewrite mem_append, Hnew, IH.
  - simpl. rewrite IH, orb_false_r.
    rewrite Ascii.eqb_sym. exact E.
Qed.

(** [lstrip] of a string with exactly one leading [c]. *)
Lemma lstrip_single (c : ascii) (t : string) :
  startswith (String c "") t = false ->
  lstrip (String c "") (String c t) = t.
Proof.
  intros H; simpl. rewrite Ascii.eqb_refl; simpl.
  destruct t as [|d t]; simpl in *; [reflexivity|].
  rewrite andb_true_r in H. rewrite Ascii.eqb_sym, H. reflexivity.
Qed.

End PyStrFacts.

(** ** [mangle_path] *)

Module MangleSpec.
Import PyStr PyStrFacts Py PurePath OS Spec.


Lemma replace_cons_ne (old c : ascii) (new s : string) :
  Ascii.eqb c old = false ->
  replace old new (String c s) = String c (replace old new s).
Proof. intros H; simpl; now rewrite H. Qed.

Lemma unmangle_single (d : ascii) (r : string) :
  Ascii.eqb d underscore = false ->
  unmangle (String underscore (String d r))
  = String underscore (unmangle (String d r)).
Proof. intros H. simpl. now rewrite H. Qed.

Lemma unmangle_replace (s : string) :
  tidy s = true -> unmangle (replace slash "__" s) = s.
Proof.
  induction s as [|c s IH]; [reflexivity|].
  intros H. simpl in H. apply andb_true_iff in H as [Hc Hs].
  specialize (IH Hs).
  destruct (Ascii.eqb c slash) eqn:Eslash.
  - apply Ascii.eqb_eq in Eslash; subst c.
    change (replace slash "__" (String slash s))
      with (String underscore (String underscore (replace slash "__" s))).
    simpl. now rewrite IH.
  - rewrite replace_cons_ne by assumption.
    destruct (Ascii.eqb c underscore) eqn:Eund.
    + apply Ascii.eqb_eq in Eund; subst c.
      destruct s as [|d s'].
      * reflexivity.
      * apply andb_true_iff in Hc as [Hd1 Hd2].
        apply negb_true_iff in Hd1, Hd2.
        rewrite (replace_cons_ne slash d) by assumption.
        rewrite unmangle_single by assumption.
        rewrite <- (replace_cons_ne slash d) by assumption.
        now rewrite IH.
    + simpl. rewrite Eund. now rewrite IH.
Qed.

Lemma tidy_tail (c : ascii) (t : string) : tidy (String c t) = true -> tidy t = true.
Proof. simpl; intros H; now apply andb_true_iff in H as [_ H]. Qed.

Lemma single_root_inv (s : string) :
  single_root s = true ->
  exists t, s = String slash t /\ startswith "/" t = false.
Proof.
  unfold single_root; intros H. apply andb_true_iff in H as [H1 H2].
  destruct s as [|c t]; [discriminate|]. cbn [startswith] in H1.
  rewrite andb_true_r in H1. apply Ascii.eqb_eq in H1. subst c.
  exists t; split; [reflexivity|].
  apply negb_true_iff in H2. cbn [startswith] in H2.
  rewrite Ascii.eqb_refl in H2.
  destruct t as [|d t]; [reflexivity|]. cbn [startswith andb] in *.
  exact H2.
Qed.

(** [mangle_str] can be undone on tidy, singly rooted path strings. *)
Lemma mangle_str_inj (s1 s2 : string) :
  single_root s1 = true -> single_root s2 = true ->
  tidy s1 = true -> tidy s2 = true ->
  Config.mangle_str s1 = Config.mangle_str s2 -> s1 = s2.
Proof.
  intros R1 R2 T1 T2 H.
  apply single_root_inv in R1 as (t1 & -> & N1).
  apply single_root_inv in R2 as (t2 & -> & N2).
  unfold Config.mangle_str in H. apply append_inv_tail in H.
  change "/" with (String slash "") in H.
  rewrite !lstrip_single in H by assumption.
  apply tidy_tail in T1, T2.
  apply (f_equal unmangle) in H.
  rewrite !unmangle_replace in H by assumption. now subst.
Qed.

(** C9: whatever the input path, the name [mangle_path] returns has no
    path separator in it and ends with [.toml]; it returns a name whenever
    the path can be resolved, and otherwise raises what [resolve] raised. *)
Theorem mangle_path_filename (env : Env) (path : Path) :
  match resolve env path with
  | Returns _ =>
      exists s, Config.mangle_path env path = Ok s /\
                mem slash s = false /\ endswith ".toml" s = true
  | Throws e => Config.mangle_path env path = Raise (Builtin e)
  end.
Proof.
  unfold Config.mangle_path, Config.mangle_str.
  destruct (resolve env path) as [r|e]; [|reflexivity].
  eexists. split; [reflexivity|]. split.
  - rewrite mem_append, mem_replace by reflexivity. reflexivity.
  - apply endswith_append.
Qed.

(** C1, as the code has it: two paths whose resolved forms differ get
    different names, provided both resolved forms start with exactly one
    separator and have no underscore directly followed by an underscore or
    a separator. *)
Theorem mangle_path_injective_tidy (env : Env) (p q rp rq : Path) :
  resolve env p = Returns rp ->
  resolve env q = Returns rq ->
  single_root rp = true ->
  single_root rq = true ->
  tidy rp = true ->
  tidy rq = true ->
  rp <> rq ->
  exists a b,
    Config.mangle_path env p = Ok a /\ Config.mangle_path env q = Ok b /\ a <> b.
Proof.
  intros Hp Hq Rp Rq Tp Tq Hne.
  unfold Config.mangle_path. rewrite Hp, Hq.
  eexists _, _. split; [reflexivity|]. split; [reflexivity|].
  intros Heq. apply Hne. now apply mangle_str_inj.
Qed.

Lemma mangle_path_injective_tidy_witness :
  exists a b,
    Config.mangle_path (Scenario.env_with Scenario.no_data) "/srv/my_app/repo" = Ok a /\
    Config.mangle_path (Scenario.env_with Scenario.no_data) "/srv/my/app_repo" = Ok b /\
    a <> b.
Proof.
  apply (mangle_path_injective_tidy (Scenario.env_with Scenario.no_data)
           "/srv/my_app/repo" "/srv/my/app_repo" "/srv/my_app/repo" "/srv/my/app_repo");
    try reflexivity.
  discriminate.
Defined.

(** C1 as stated fails: two distinct absolute paths with the same name. *)
Lemma mangle_path_collision :
  is_absolute "/a/b" = true /\ is_absolute "/a__b" = true /\
  "/a/b" <> "/a__b" /\
  Config.mangle_path (Scenario.env_with Scenario.no_data) "/a/b" = Ok "a__b.toml" /\
  Config.mangle_path (Scenario.env_with Scenario.no_data) "/a__b" = Ok "a__b.toml".
Proof. repeat split; try reflexivity. discriminate. Qed.

End MangleSpec.


(** ** Equations for the effectful primitives *)

Module OpsFacts.
Import Py PurePath OS Types Spec.

Lemma log_eq level fmt args w : log level fmt args w = (Ok tt, logged level fmt args w).
Proof. reflexivity. Qed.

Lemma subprocess_run_eq env args dir sh check w :
  subprocess_run env args dir sh check w =
  let spec := {| argv := args; use_shell := sh; cwd := dir |} in
  let '(out, f') := spawn env spec (fs w) in
  let w' := spawned spec f' w in
  match out with
  | NotLaunched e => (Raise (Builtin e), w')
  | Exited rc so se =>
      if check && negb (Z.eqb rc 0) then (Raise (CalledProcessError rc so se), w')
      else (Ok {| returncode := rc; stdout := so; stderr := se |}, w')
  end.
Proof.
  unfold subprocess_run, bind, emit, get_fs, set_fs, spawned. simpl.
  destruct (spawn env _ (fs w)) as [[rc so se|e] f']; simpl; [|reflexivity].
  destruct (check && negb (rc =? 0)%Z); reflexivity.
Qed.

Lemma get_git_root_in env dir w :
  Ops.get_git_root env (Some dir) w =
  match spawn env (git_rev_parse dir) (fs w) with
  | (NotLaunched e, f') => (Raise (Builtin e), spawned (git_rev_parse dir) f' w)
  | (Exited rc so se, f') =>
      if Z.eqb rc 0
      then (Ok (of_str (PyStr.strip so)), spawned (git_rev_parse dir) f' w)
      else (Raise (NotAGitRepository dir), spawned (git_rev_parse dir) f' w)
  end.
Proof.
  unfold Ops.get_git_root. unfold bind at 1. unfold ret at 1.
  unfold bind, try_except. rewrite subprocess_run_eq. cbv zeta.
  fold (git_rev_parse dir).
  destruct (spawn env (git_rev_parse dir) (fs w)) as [[rc so se|e] f']; [|reflexivity].
  destruct (Z.eqb rc 0); reflexivity.
Qed.

(** Without a directory, [get_git_root] asks for the current one first. *)
Lemma get_git_root_eq env path w :
  Ops.get_git_root env path w =
  match dir_of env path with
  | Returns dir => Ops.get_git_root env (Some dir) w
  | Throws e => (Raise (Builtin e), w)
  end.
Proof.
  destruct path as [p|]; [reflexivity|].
  unfold dir_of, Ops.get_git_root. unfold bind at 1. unfold lift.
  destruct (getcwd env) as [d|e]; reflexivity.
Qed.

Lemma branch_exists_eq env repo_root branch w :
  Ops._branch_exists env repo_root branch w =
  match spawn env (git_show_ref repo_root branch) (fs w) with
  | (NotLaunched e, f') => (Raise (Builtin e), spawned (git_show_ref repo_root branch) f' w)
  | (Exited rc _ _, f') => (Ok (Z.eqb rc 0), spawned (git_show_ref repo_root branch) f' w)
  end.
Proof.
  unfold Ops._branch_exists, bind. rewrite subprocess_run_eq. cbv zeta.
  fold (git_show_ref repo_root branch).
  destruct (spawn env _ (fs w)) as [[rc so se|e] f']; reflexivity.
Qed.

(** [make_dirs] never removes a directory. *)
Lemma make_dirs_keeps ps : forall f r f' q,
  make_dirs ps f = (r, f') -> f !! q = Some Dir -> f' !! q = Some Dir.
Proof.
  induction ps as [|p ps IH]; intros f r f' q H Hq; simpl in H.
  - now inversion H; subst.
  - destruct (f !! p) as [[c m|]|] eqn:Ep.
    + now inversion H; subst.
    + eauto.
    + eapply IH; [exact H|].
      destruct (decide (p = q)) as [->|Hne].
      * apply lookup_insert_eq.
      * now rewrite lookup_insert_ne.
Qed.

(** When [make_dirs] succeeds, every listed path is a directory. *)
Lemma make_dirs_made ps : forall f f' q,
  make_dirs ps f = (Ok tt, f') -> In q ps -> f' !! q = Some Dir.
Proof.
  induction ps as [|p ps IH]; intros f f' q H Hin; simpl in H; [destruct Hin|].
  destruct Hin as [->|Hin].
  - destruct (f !! q) as [[c m|]|] eqn:Ep.
    + discriminate.
    + eapply make_dirs_keeps; eauto.
    + eapply make_dirs_keeps; [exact H|]. apply lookup_insert_eq.
  - destruct (f !! p) as [[c m|]|] eqn:Ep; [discriminate| |]; eauto.
Qed.

Lemma make_dirs_raises ps : forall f e f',
  make_dirs ps f = (Raise e, f') -> is_OSError e = true.
Proof.
  induction ps as [|p ps IH]; intros f e f' H; simpl in H; [discriminate|].
  destruct (f !! p) as [[c m|]|]; eauto. now inversion H.
Qed.

Lemma mkdir_parents_eq env p w :
  mkdir_parents env p w =
  match fs_fault env (OpMkdir p) (fs w) with
  | Some (msg, f') => (Raise (Builtin (OSError msg)), made p f' w)
  | None => let '(r, f') := make_dirs (ancestors p ++ [p]) (fs w) in (r, made p f' w)
  end.
Proof.
  unfold mkdir_parents, bind, emit, get_fs, set_fs, raise, lift, made. simpl.
  destruct (fs_fault env (OpMkdir p) (fs w)) as [[msg f']|]; [reflexivity|].
  destruct (make_dirs _ (fs w)) as [r f']. reflexivity.
Qed.

(** A successful [mkdir(parents=True, exist_ok=True)] leaves a directory. *)
Lemma mkdir_parents_ok env p w w' :
  mkdir_parents env p w = (Ok tt, w') ->
  Forall (fun q => is_dir (fs w') q = true) (ancestors p ++ [p]) /\
  stdin w' = stdin w /\
  trace w' = (trace w ++ [EvMkdir p])%list.
Proof.
  rewrite mkdir_parents_eq.
  destruct (fs_fault env (OpMkdir p) (fs w)) as [[msg f']|]; [discriminate|].
  destruct (make_dirs _ (fs w)) as [r f'] eqn:E. intros H; inversion H; subst.
  simpl. split; [|split; reflexivity].
  apply List.Forall_forall. intros q Hq.
  unfold is_dir. erewrite make_dirs_made; [reflexivity|exact E|exact Hq].
Qed.

Lemma Forall_last {A} (P : A -> Prop) (l : list A) (x : A) :
  Forall P (l ++ [x]) -> P x.
Proof.
  intros H. rewrite List.Forall_forall in H. apply H.
  apply in_or_app; right; now left.
Qed.

Lemma mkdir_parents_raises env p w e w' :
  mkdir_parents env p w = (Raise e, w') -> is_OSError e = true.
Proof.
  rewrite mkdir_parents_eq.
  destruct (fs_fault env (OpMkdir p) (fs w)) as [[msg f']|].
  - intros H; now inversion H.
  - destruct (make_dirs _ (fs w)) as [r f'] eqn:E. intros H; inversion H; subst.
    eapply make_dirs_raises; eauto.
Qed.

(** [mkdir] and [copy2] return or raise [OSError], nothing else. *)
Lemma mkdir_parents_cases env p w :
  exists r f', mkdir_parents env p w = (r, made p f' w)
               /\ (r = Ok tt \/ exists msg, r = Raise (Builtin (OSError msg))).
Proof.
  rewrite mkdir_parents_eq.
  destruct (fs_fault env (OpMkdir p) (fs w)) as [[msg f']|]; [eauto 6|].
  destruct (make_dirs _ (fs w)) as [[[]|e] f'] eqn:E; [eauto 6|].
  pose proof (make_dirs_raises _ _ _ _ E) as He.
  destruct e as [| |[]]; try discriminate. eauto 6.
Qed.

Lemma copy2_cases env src dst w :
  exists r f', copy2 env src dst w
               = (r, {| fs := f'; stdin := stdin w;
                        trace := trace w ++ [EvCopy2 src dst] |})
               /\ (r = Ok tt \/ exists msg, r = Raise (Builtin (OSError msg))).
Proof.
  unfold copy2, bind, emit, get_fs, set_fs, raise, ret. simpl.
  destruct (fs_fault env (OpCopy2 src dst) (fs w)) as [[msg f']|]; simpl.
  { eauto 6. }
  destruct (fs w !! src) as [[content mtime|]|]; simpl; [|eauto 6..].
  repeat match goal with |- context [if ?b then _ else _] => destruct b end;
    simpl; eauto 6.
Qed.

(** [find_config] once the start directory is known. *)
Lemma find_config_start env start_dir dir w :
  start_of env start_dir = Returns dir ->
  Config.find_config env start_dir w =
  (found <- try_except
     (git_root <- Ops.get_git_root env (Some dir) ;; ret (Some git_root))
     is_VaihdeError
     (fun _ => ret None) ;;
   match found with
   | None => ret None
   | Some git_root =>
       global_config <- lift (Config.get_global_config_path env git_root) ;;
       global_found <- exists_ global_config ;;
       if global_found then ret (Some global_config)
       else
         let local_config := Config.get_local_config_path git_root in
         local_found <- exists_ local_config ;;
         if local_found then ret (Some local_config)
         else ret None
   end)%py w.
Proof.
  unfold start_of, dir_of, Config.find_config. intros H.
  unfold bind at 1.
  destruct start_dir as [d|]; unfold lift, ret at 1.
  - unfold bind at 1. unfold lift. rewrite H. reflexivity.
  - destruct (getcwd env) as [d|e]; [|discriminate]. cbn [of_lib].
    unfold bind at 1. unfold lift. rewrite H. reflexivity.
Qed.

(** When the start directory cannot be determined, [find_config] raises
    before anything is run. *)
Lemma find_config_unresolved env start_dir e w :
  start_of env start_dir = Throws e ->
  Config.find_config env start_dir w = (Raise (Builtin e), w).
Proof.
  unfold start_of, dir_of, Config.find_config. intros H.
  unfold bind at 1.
  destruct start_dir as [d|]; unfold lift, ret at 1.
  - unfold bind at 1. unfold lift. rewrite H. reflexivity.
  - destruct (getcwd env) as [d|e']; cbn [of_lib].
    + unfold bind at 1. unfold lift. rewrite H. reflexivity.
    + now inversion H.
Qed.

(** Every run of [find_config] from a known start directory consists of one
    [git rev-parse]. *)
Lemma find_config_world env start_dir dir w r w' :
  start_of env start_dir = Returns dir ->
  Config.find_config env start_dir w = (r, w') ->
  w' = spawned (git_rev_parse dir) (snd (spawn env (git_rev_parse dir) (fs w))) w.
Proof.
  intros Hstart. rewrite (find_config_start _ _ _ _ Hstart).
  unfold bind at 1. unfold try_except. unfold bind at 1.
  rewrite get_git_root_in.
  destruct (spawn env _ (fs w)) as [[rc so se|e] f']; simpl.
  2:{ intros H; now inversion H. }
  destruct (Z.eqb rc 0); simpl.
  2:{ intros H; now inversion H. }
  unfold bind, lift, exists_, ret.
  destruct (Config.get_global_config_path env _) as [g|e]; simpl.
  2:{ intros H; now inversion H. }
  repeat match goal with |- context [if ?b then _ else _] => destruct b end;
    intros H; now inversion H.
Qed.

End OpsFacts.

(** ** Configuration discovery *)

Module FindConfigSpec.
Import Py PurePath OS Types Spec OpsFacts.

(** C8: when the start directory is not inside a git repository (git
    rev-parse exits with a non-zero status in the resolved start
    directory), [find_config] returns [None]; the [VaihdeError] of
    [get_git_root] does not leave it. *)
Theorem find_config_outside_repository env start_dir dir w rc out err f' :
  start_of env start_dir = Returns dir ->
  spawn env (git_rev_parse dir) (fs w) = (Exited rc out err, f') ->
  rc <> 0%Z ->
  Config.find_config env start_dir w
  = (Ok None, spawned (git_rev_parse dir) f' w).
Proof.
  intros Hstart Hgit Hrc.
  rewrite (find_config_start _ _ _ _ Hstart). unfold bind, try_except.
  rewrite get_git_root_in. rewrite Hgit.
  apply Z.eqb_neq in Hrc. rewrite Hrc. reflexivity.
Qed.

Lemma find_config_outside_repository_witness :
  Config.find_config (Scenario.env_with Scenario.no_data) (Some "/tmp") Scenario.with_both
  = (Ok None, spawned (git_rev_parse "/tmp") (fs Scenario.with_both) Scenario.with_both).
Proof.
  apply (find_config_outside_repository (Scenario.env_with Scenario.no_data)
           (Some "/tmp") "/tmp" Scenario.with_both 128 "" "fatal: not a git repository").
  - reflexivity.
  - reflexivity.
  - discriminate.
Defined.

(** C2: when the global and the local configuration file both exist for
    the repository root, [find_config] returns the global one. *)
Theorem find_config_prefers_global env start_dir dir w git_root w1 global :
  start_of env start_dir = Returns dir ->
  Ops.get_git_root env (Some dir) w = (Ok git_root, w1) ->
  Config.get_global_config_path env git_root = Ok global ->
  path_exists (fs w1) global = true ->
  path_exists (fs w1) (Config.get_local_config_path git_root) = true ->
  Config.find_config env start_dir w = (Ok (Some global), w1).
Proof.
  intros Hstart Hroot Hglobal Hg _.
  rewrite (find_config_start _ _ _ _ Hstart). unfold bind, try_except.
  rewrite Hroot. unfold ret, lift, exists_. rewrite Hglobal, Hg. reflexivity.
Qed.

Lemma find_config_prefers_global_witness :
  Config.find_config (Scenario.env_with Scenario.no_data) None Scenario.with_both
  = (Ok (Some "/home/u/.config/vaihde/repo.toml"),
     spawned (git_rev_parse "/repo") (fs Scenario.with_both) Scenario.with_both).
Proof.
  apply (find_config_prefers_global (Scenario.env_with Scenario.no_data) None "/repo"
           Scenario.with_both "/repo").
  - reflexivity.
  - vm_compute. reflexivity.
  - vm_compute. reflexivity.
  - vm_compute. reflexivity.
  - vm_compute. reflexivity.
Defined.

End FindConfigSpec.

(** ** Worktree creation *)

Module WorktreeSpec.
Import Py PurePath OS Types Spec Runs OpsFacts PyStrFacts.

(** C3: [create_worktree] fails with [WorktreeExists] whenever
    [target/name] exists on disk, and then nothing else has happened (the
    directory check comes before the branch check); when [target/name] does
    not exist and a branch [name] exists (git show-ref exits with 0), it
    fails with [BranchExists]. *)
Theorem create_worktree_rejects_taken env repo_root target name w :
  let worktree_path := joinpath target name in
  (path_exists (fs w) worktree_path = true ->
   Ops.create_worktree env repo_root target name w
   = (Raise (WorktreeExists worktree_path), w))
  /\
  (path_exists (fs w) worktree_path = false ->
   forall out err f',
   spawn env (git_show_ref repo_root name) (fs w) = (Exited 0 out err, f') ->
   Ops.create_worktree env repo_root target name w
   = (Raise (BranchExists name), spawned (git_show_ref repo_root name) f' w)).
Proof.
  intros worktree_path; split.
  - intros Hdir. unfold Ops.create_worktree, bind, exists_.
    fold worktree_path. rewrite Hdir. reflexivity.
  - intros Hdir out err f' Hgit. unfold Ops.create_worktree.
    fold worktree_path. unfold bind at 1. unfold exists_. rewrite Hdir.
    unfold bind at 1. rewrite branch_exists_eq, Hgit. reflexivity.
Qed.


Lemma create_worktree_rejects_taken_witness :
  Ops.create_worktree (Scenario.env_with Scenario.no_data) "/repo" "/wt" "main" taken_dir
  = (Raise (WorktreeExists "/wt/main"), taken_dir)
  /\
  Ops.create_worktree (Scenario.env_with Scenario.no_data) "/repo" "/wt" "main" Scenario.bare
  = (Raise (BranchExists "main"),
     spawned (git_show_ref "/repo" "main") (fs Scenario.bare) Scenario.bare).
Proof.
  split.
  - apply (proj1 (create_worktree_rejects_taken
                    (Scenario.env_with Scenario.no_data) "/repo" "/wt" "main" taken_dir)).
    vm_compute. reflexivity.
  - apply (proj2 (create_worktree_rejects_taken
                    (Scenario.env_with Scenario.no_data) "/repo" "/wt" "main" Scenario.bare))
      with (out := "") (err := "").
    + vm_compute. reflexivity.
    + reflexivity.
Defined.

(** C10: when [create_worktree] fails with [WorktreeCreationFailed], the
    target directory and its ancestors were created before git ran and
    nothing is undone afterwards: the disk is the one git left, the trace
    ends with the failed git command, and the target directory exists (git
    itself does not remove it), whether or not it existed before the call. *)
Theorem create_worktree_failure_keeps_target env repo_root target name w err w' :
  let worktree_path := joinpath target name in
  Ops.create_worktree env repo_root target name w
  = (Raise (WorktreeCreationFailed err), w') ->
  (forall f, is_dir f target = true ->
             is_dir (snd (spawn env (git_worktree_add repo_root name worktree_path) f))
               target = true) ->
  is_dir (fs w') target = true /\
  exists f, Forall (fun q => is_dir f q = true) (ancestors target ++ [target]) /\
            fs w' = snd (spawn env (git_worktree_add repo_root name worktree_path) f) /\
            trace w' = (trace w ++ [EvSpawn (git_show_ref repo_root name);
                                    EvMkdir target;
                                    EvSpawn (git_worktree_add repo_root name worktree_path)])%list.
Proof.
  intros worktree_path Hfail Hgit.
  unfold Ops.create_worktree in Hfail. fold worktree_path in Hfail.
  unfold bind at 1 in Hfail. unfold exists_ in Hfail.
  destruct (path_exists (fs w) worktree_path).
  { unfold raise, WorktreeCreationFailed in Hfail.
    rewrite !append_cons in Hfail. discriminate. }
  unfold bind at 1 in Hfail. rewrite branch_exists_eq in Hfail.
  destruct (spawn env (git_show_ref repo_root name) (fs w)) as [[rc so se|e] f1];
    [|discriminate].
  destruct (Z.eqb rc 0).
  { unfold raise, WorktreeCreationFailed in Hfail.
    rewrite !append_cons in Hfail. discriminate. }
  unfold bind at 1 in Hfail.
  destruct (mkdir_parents env target _) as [[[]|e] w2] eqn:Emk.
  2:{ apply mkdir_parents_raises in Emk. inversion Hfail; subst. discriminate. }
  apply mkdir_parents_ok in Emk as (Hdir & Hin & Htr).
  unfold bind, try_except in Hfail. rewrite subprocess_run_eq in Hfail.
  cbv zeta in Hfail. fold (git_worktree_add repo_root name worktree_path) in Hfail.
  pose proof (Hgit (fs w2) (Forall_last _ _ _ Hdir)) as Hkeep.
  destruct (spawn env (git_worktree_add repo_root name worktree_path) (fs w2))
    as [[rc2 so2 se2|e] f3] eqn:Eadd; simpl in Hfail, Hkeep.
  2:{ discriminate. }
  destruct (Z.eqb rc2 0); simpl in Hfail; [discriminate|].
  inversion Hfail; subst w'. simpl. split; [exact Hkeep|].
  exists (fs w2). rewrite Eadd. simpl. repeat split; [exact Hdir|].
  rewrite Htr. simpl. repeat rewrite <- List.app_assoc. reflexivity.
Qed.

Lemma create_worktree_failure_keeps_target_witness :
  is_dir (fs Scenario.bare) "/wt" = false /\
  is_dir (fs (snd (Ops.create_worktree (Scenario.env_with Scenario.no_data)
                     "/repo" "/wt" "broken" Scenario.bare))) "/wt" = true.
Proof.
  split; [vm_compute; reflexivity|].
  apply (create_worktree_failure_keeps_target (Scenario.env_with Scenario.no_data)
           "/repo" "/wt" "broken" Scenario.bare "fatal: invalid reference").
  - vm_compute. reflexivity.
  - intros f H. exact H.
Defined.

End WorktreeSpec.

(** ** Copying files *)

Module CopySpec.
Import Py PurePath OS Types Spec Runs OpsFacts.

(** One entry: the loop body returns, leaves exactly one report and starts
    no process. *)
Lemma copy_file_returns env src_dir dst_dir (f : string) w :
  exists w' evs,
    Ops.copy_file env src_dir dst_dir (TStr f) w = (Ok tt, w') /\
    trace w' = (trace w ++ evs)%list /\
    omap copy_report evs = [TStr f] /\
    omap spawn_of evs = [].
Proof.
  unfold Ops.copy_file, lift, as_path_str. unfold bind at 1.
  unfold try_except. unfold bind at 1. unfold exists_.
  set (src := joinpath src_dir f). set (dst := joinpath dst_dir f).
  destruct (path_exists (fs w) src); cbn [negb].
  2:{ rewrite log_eq. eexists _, [_]. repeat split. }
  unfold bind at 1.
  destruct (mkdir_parents_cases env (parent dst) w)
    as (r1 & f1 & -> & [->|[msg ->]]).
  2:{ exists (logged WARNING "Failed to copy %s: %s" [TStr f; TStr msg]
                (made (parent dst) f1 w)),
             [EvMkdir (parent dst);
              EvLog WARNING "Failed to copy %s: %s" [TStr f; TStr msg]].
      split; [reflexivity|]. simpl. split; [|split; reflexivity].
      now rewrite <- List.app_assoc. }
  unfold bind at 1.
  destruct (copy2_cases env src dst (made (parent dst) f1 w))
    as (r2 & f2 & -> & [->|[msg ->]]).
  - rewrite log_eq.
    eexists _, [EvMkdir (parent dst); EvCopy2 src dst; EvLog DEBUG "Copied %s" [TStr f]].
    split; [reflexivity|]. simpl. split; [|split; reflexivity].
    now repeat rewrite <- List.app_assoc.
  - eexists _, [EvMkdir (parent dst); EvCopy2 src dst;
                EvLog WARNING "Failed to copy %s: %s" [TStr f; TStr msg]].
    split; [reflexivity|]. simpl. split; [|split; reflexivity].
    now repeat rewrite <- List.app_assoc.
Qed.

(** The whole list: [copy_files] returns, with one report per entry, in
    order. *)
Lemma copy_files_returns env src_dir dst_dir (files : list string) : forall w,
  exists w' evs,
    Ops.copy_files env src_dir dst_dir (TArray (map TStr files)) w = (Ok tt, w') /\
    trace w' = (trace w ++ evs)%list /\
    omap copy_report evs = map TStr files /\
    omap spawn_of evs = [].
Proof.
  unfold Ops.copy_files, lift. simpl iterate. unfold bind at 1.
  induction files as [|f files IH]; intros w; simpl.
  - exists w, []. repeat split. now rewrite List.app_nil_r.
  - destruct (copy_file_returns env src_dir dst_dir f w)
      as (w1 & evs1 & E1 & T1 & R1 & S1).
    destruct (IH w1) as (w2 & evs2 & E2 & T2 & R2 & S2).
    exists w2, (evs1 ++ evs2)%list. unfold bind at 1. rewrite E1. split; [exact E2|].
    split; [|split].
    + now rewrite T2, T1, List.app_assoc.
    + now rewrite omap_app, R1, R2.
    + now rewrite omap_app, S1, S2.
Qed.

(** An entry whose source is missing: an informational record, nothing
    else. *)
Lemma copy_file_missing env src_dir dst_dir (f : string) w :
  path_exists (fs w) (joinpath src_dir f) = false ->
  Ops.copy_file env src_dir dst_dir (TStr f) w
  = (Ok tt, logged INFO "Skipping %s (not found in source)" [TStr f] w).
Proof.
  intros Hmissing.
  unfold Ops.copy_file, lift, as_path_str. unfold bind at 1.
  unfold try_except. unfold bind at 1. unfold exists_.
  rewrite Hmissing. reflexivity.
Qed.

(** An entry whose copy fails: a warning, and the loop body returns. *)
Lemma copy_file_failed env src_dir dst_dir (f : string) w msg w1 :
  path_exists (fs w) (joinpath src_dir f) = true ->
  (mkdir_parents env (parent (joinpath dst_dir f)) ;;;
   copy2 env (joinpath src_dir f) (joinpath dst_dir f))%py w
  = (Raise (Builtin (OSError msg)), w1) ->
  Ops.copy_file env src_dir dst_dir (TStr f) w
  = (Ok tt, logged WARNING "Failed to copy %s: %s" [TStr f; TStr msg] w1).
Proof.
  intros Hfound Hfail.
  unfold Ops.copy_file, lift, as_path_str. unfold bind at 1.
  unfold try_except. unfold bind at 1. unfold exists_.
  rewrite Hfound. cbn [negb].
  unfold bind at 1 in Hfail. unfold bind at 1.
  destruct (mkdir_parents env _ w) as [[[]|e] w2].
  - unfold bind at 1. rewrite Hfail. reflexivity.
  - inversion Hfail; subst. reflexivity.
Qed.

(** C7: for every list of entries the copy step returns normally, handling
    every entry in order (one report each); an entry whose source does not
    exist is skipped with an informational record only; an entry whose copy
    raises an [OSError] is logged as a warning and the step goes on. *)
Theorem copy_files_never_aborts env src_dir dst_dir :
  (forall (files : list string) w,
     exists w' evs,
       Ops.copy_files env src_dir dst_dir (TArray (map TStr files)) w = (Ok tt, w') /\
       trace w' = (trace w ++ evs)%list /\
       omap copy_report evs = map TStr files)
  /\
  (forall (f : string) w,
     path_exists (fs w) (joinpath src_dir f) = false ->
     Ops.copy_file env src_dir dst_dir (TStr f) w
     = (Ok tt, logged INFO "Skipping %s (not found in source)" [TStr f] w))
  /\
  (forall (f : string) w msg w1,
     path_exists (fs w) (joinpath src_dir f) = true ->
     (mkdir_parents env (parent (joinpath dst_dir f)) ;;;
      copy2 env (joinpath src_dir f) (joinpath dst_dir f))%py w
     = (Raise (Builtin (OSError msg)), w1) ->
     Ops.copy_file env src_dir dst_dir (TStr f) w
     = (Ok tt, logged WARNING "Failed to copy %s: %s" [TStr f; TStr msg] w1)).
Proof.
  split; [|split].
  - intros files w.
    destruct (copy_files_returns env src_dir dst_dir files w)
      as (w' & evs & E & T & R & _).
    exists w', evs. auto.
  - apply copy_file_missing.
  - apply copy_file_failed.
Qed.


Lemma copy_files_never_aborts_witness :
  Ops.copy_file (Scenario.env_with Scenario.no_data) "/repo" "/wt" (TStr "missing.txt")
    Scenario.bare
  = (Ok tt, logged INFO "Skipping %s (not found in source)" [TStr "missing.txt"]
              Scenario.bare)
  /\
  fst (Ops.copy_file (Scenario.env_with Scenario.no_data) "/repo" "/readonly" (TStr ".env")
         readonly_root) = Ok tt.
Proof.
  split.
  - apply (proj1 (proj2 (copy_files_never_aborts
                           (Scenario.env_with Scenario.no_data) "/repo" "/wt"))).
    vm_compute. reflexivity.
  - erewrite (proj2 (proj2 (copy_files_never_aborts
                              (Scenario.env_with Scenario.no_data) "/repo" "/readonly"))
                ".env" readonly_root "Permission denied: /readonly/.env").
    + reflexivity.
    + vm_compute. reflexivity.
    + vm_compute. reflexivity.
Defined.

End CopySpec.

(** ** Post-commands *)

Module CommandsSpec.
Import Py PurePath OS Types Spec Runs OpsFacts.







End CommandsSpec.

(** ** Loading the configuration *)

Module LoadConfigSpec.
Import Py PurePath OS Types Spec OpsFacts.

(** On an array of tables the loop over [post_commands] fails exactly when
    some table has no [run]. *)
Lemma parse_post_commands_tables path items :
  forallb is_table items = true ->
  Config.parse_post_commands path items =
  if existsb (lacks "run") items
  then Raise (VaihdeError ("Post command missing 'run' field in " +:+ path))
  else Ok (map expected_command items).
Proof.
  induction items as [|v items IH]; intros H; [reflexivity|].
  simpl in H. apply andb_true_iff in H as [Hv Hrest].
  destruct v as [| | | | | |d]; try discriminate.
  cbn [Config.parse_post_commands existsb map]. rewrite (IH Hrest).
  destruct (existsb (lacks "run") items);
    unfold Config.parse_post_command, contains, getitem, get, lacks, dict_has,
      expected_command, Config.get_or;
    destruct (dict_get "run" d) as [r|]; reflexivity.
Qed.

(** C5, as the code has it: on parsed data of the prescribed shape, and
    when expanding the user directory in [worktree_root] and resolving the
    expanded path both succeed, [load_config] fails with a [VaihdeError]
    exactly when the data lacks [worktree_root] or some entry of
    [post_commands] lacks [run]; otherwise it returns the configuration
    with the expanded and resolved [worktree_root], with [copy.files] or
    the empty list, and with each post-command's [shell] defaulting to
    false. *)
Theorem load_config_validation env path w text data :
  read_text path w = (Ok text, w) ->
  tomllib_loads env text = Returns data ->
  well_typed data = true ->
  (forall s, dict_get "worktree_root" data = Some (TStr s) ->
             exists p q, expanduser env (of_str s) = Returns p /\
                         resolve env p = Returns q) ->
  ((exists msg, Config.load_config env path w = (Raise (VaihdeError msg), w))
   <-> incomplete data = true)
  /\
  (incomplete data = false ->
   exists s p q,
     dict_get "worktree_root" data = Some (TStr s) /\
     expanduser env (of_str s) = Returns p /\
     resolve env p = Returns q /\
     Config.load_config env path w
     = (Ok {| worktree_root := q;
              copy_files := expected_files data;
              post_commands := map expected_command (entries data) |}, w)).
Proof.
  intros Hread Hparse Htyped Hhome.
  assert (Hload : Config.load_config env path w = (Config.config_of_data env path data, w)).
  { unfold Config.load_config. unfold bind at 1. rewrite Hread.
    unfold bind at 1. unfold lift. now rewrite Hparse. }
  rewrite Hload. clear Hload Hread Hparse.
  unfold well_typed in Htyped.
  apply andb_true_iff in Htyped as [Htyped Hpost].
  apply andb_true_iff in Htyped as [Hroot Hcopy].
  unfold incomplete, entries, expected_files, Config.config_of_data, dict_has.
  destruct (dict_get "worktree_root" data) as [root|] eqn:Eroot.
  2:{ cbn [negb orb]. split; [split; eauto|discriminate]. }
  destruct root as [s| | | | | |]; try discriminate.
  destruct (Hhome s eq_refl) as (p & q & Hp & Hq).
  cbn [negb orb as_path_str]. rewrite Hp, Hq.
  assert (Hfiles : get "files" (TArray []) (Config.get_or "copy" (TTable []) data)
                   = Ok match dict_get "copy" data with
                        | Some (TTable d) => Config.get_or "files" (TArray []) d
                        | _ => TArray []
                        end).
  { unfold Config.get_or at 1.
    destruct (dict_get "copy" data) as [[| | | | | |d]|]; try discriminate; reflexivity. }
  rewrite Hfiles.
  assert (Hitems : iterate (Config.get_or "post_commands" (TArray []) data)
                   = Ok match dict_get "post_commands" data with
                        | Some (TArray items) => items
                        | _ => []
                        end
                   /\ forallb is_table match dict_get "post_commands" data with
                                       | Some (TArray items) => items
                                       | _ => []
                                       end = true).
  { unfold Config.get_or.
    destruct (dict_get "post_commands" data) as [[| | | | |items|]|];
      try discriminate; split; try reflexivity; exact Hpost. }
  destruct Hitems as [-> Htables].
  rewrite (parse_post_commands_tables _ _ Htables).
  destruct (existsb (lacks "run") _).
  - split; [split; eauto|discriminate].
  - split.
    + split; [intros [msg H]; discriminate | discriminate].
    + intros _. exists s, p, q. repeat split; assumption.
Qed.

Lemma load_config_validation_witness :
  exists s p q,
    dict_get "worktree_root" Scenario.full_data = Some (TStr s) /\
    expanduser (Scenario.env_with Scenario.full_data) (of_str s) = Returns p /\
    resolve (Scenario.env_with Scenario.full_data) p = Returns q /\
    Config.load_config (Scenario.env_with Scenario.full_data) "/repo/vaihde.toml"
      Scenario.with_local
    = (Ok {| worktree_root := q;
             copy_files := TArray [TStr ".env"; TStr "missing.txt"];
             post_commands := [ {| run := TStr "false"; shell := TBool false |};
                                {| run := TStr "true"; shell := TBool true |} ] |},
       Scenario.with_local).
Proof.
  apply (proj2 (load_config_validation (Scenario.env_with Scenario.full_data)
                  "/repo/vaihde.toml" Scenario.with_local "cfg" Scenario.full_data
                  eq_refl eq_refl eq_refl
                  (fun s _ => ex_intro _ (of_str s)
                                (ex_intro _ (of_str s) (conj eq_refl eq_refl))))).
  reflexivity.
Defined.

(** C5 as stated fails: with [worktree_root = 5] and a post-command without
    [run], the data lacks a [run] key, yet [load_config] does not fail with a
    [VaihdeError] and returns no configuration: [Path(5)] raises
    [TypeError]. *)
Lemma load_config_untyped_root :
  incomplete Scenario.untyped_data = true /\
  Config.load_config (Scenario.env_with Scenario.untyped_data) "/repo/vaihde.toml"
    Scenario.with_local
  = (Raise (Builtin (TypeError "expected str, bytes or os.PathLike object")),
     Scenario.with_local).
Proof. split; vm_compute; reflexivity. Qed.

End LoadConfigSpec.

(** ** The [new] command without a configuration *)

Module NewSpec.
Import Py PurePath OS Types Spec OpsFacts.

(** C6: when discovery finds no configuration file, [cmd_new] returns 1;
    all it has done is ask git for the repository root (once itself in the
    current directory, once in discovery in the resolved current directory)
    and log: no check of the branch, no directory made, no worktree added,
    and the disk is the one discovery left. *)
Theorem new_without_config env name w git_root w1 w2 global_path :
  Ops.get_git_root env None w = (Ok git_root, w1) ->
  Config.find_config env None (logged DEBUG "Git root: %s" [TStr git_root] w1)
  = (Ok None, w2) ->
  Config.get_global_config_path env git_root = Ok global_path ->
  exists w' evs cwd dir,
    getcwd env = Returns cwd /\
    resolve env cwd = Returns dir /\
    Cli.cmd_new env name w = (Ok 1%Z, w') /\
    fs w' = fs w2 /\
    trace w' = (trace w ++ evs)%list /\
    evs = [EvSpawn (git_rev_parse cwd);
           EvLog DEBUG "Git root: %s" [TStr git_root];
           EvSpawn (git_rev_parse dir);
           EvLog ERROR "No vaihde.toml config found" [];
           EvLog ERROR "Create vaihde.toml in your git repo, or: %s" [TStr global_path]] /\
    existsb touches_worktree evs = false.
Proof.
  intros Hroot Hfind Hglobal.
  unfold Cli.cmd_new.
  unfold bind at 1. rewrite Hroot.
  unfold bind at 1. rewrite log_eq.
  unfold bind at 1. rewrite Hfind.
  unfold bind at 1. unfold lift. rewrite Hglobal.
  unfold bind at 1. rewrite log_eq.
  unfold bind at 1. rewrite log_eq.
  rewrite get_git_root_eq in Hroot. unfold dir_of in Hroot.
  destruct (getcwd env) as [cwd|e] eqn:Ecwd; [|discriminate].
  destruct (start_of env None) as [dir|e] eqn:Estart.
  2:{ rewrite (find_config_unresolved _ _ _ _ Estart) in Hfind. discriminate. }
  assert (Hdir : resolve env cwd = Returns dir).
  { unfold start_of, dir_of in Estart. now rewrite Ecwd in Estart. }
  eexists _, _, cwd, dir. split; [reflexivity|]. split; [exact Hdir|].
  split; [reflexivity|]. split; [reflexivity|].
  split; [|split; reflexivity].
  apply (find_config_world _ _ _ _ _ _ Estart) in Hfind. subst w2.
  rewrite get_git_root_in in Hroot.
  destruct (spawn env (git_rev_parse cwd) (fs w)) as [[rc so se|e] f1];
    [|discriminate].
  destruct (Z.eqb rc 0); [|discriminate].
  inversion Hroot; subst. simpl.
  repeat rewrite <- List.app_assoc. reflexivity.
Qed.

Lemma new_without_config_witness :
  fst (Cli.cmd_new (Scenario.env_with Scenario.no_data) "feature" Scenario.bare) = Ok 1%Z
  /\ fs (snd (Cli.cmd_new (Scenario.env_with Scenario.no_data) "feature" Scenario.bare))
     = fs Scenario.bare.
Proof.
  destruct (new_without_config (Scenario.env_with Scenario.no_data) "feature"
              Scenario.bare "/repo" _ _ "/home/u/.config/vaihde/repo.toml"
              eq_refl eq_refl eq_refl)
    as (w' & evs & cwd & dir & _ & _ & E & F & _).
  rewrite E. split; [reflexivity|exact F].
Defined.

End NewSpec.

(** * Further properties of [ops.py], [config.py] and [cli.py] *)

(** ** [get_git_root] and [create_worktree] *)

Module GitMore.
Import Py PurePath OS Types Spec SpecMore Runs RunsMore OpsFacts PyStrFacts.

(** X1: when git rev-parse exits with a non-zero status, [get_git_root]
    raises the [VaihdeError] "Not a git repository" naming the directory it
    asked about: the one given, or the current directory. *)
Theorem get_git_root_not_a_repository env path dir w rc out err f' :
  dir_of env path = Returns dir ->
  spawn env (git_rev_parse dir) (fs w) = (Exited rc out err, f') ->
  rc <> 0%Z ->
  Ops.get_git_root env path w
  = (Raise (VaihdeError ("Not a git repository: " +:+ dir)),
     spawned (git_rev_parse dir) f' w).
Proof.
  intros Hdir Hgit Hrc. rewrite get_git_root_eq, Hdir, get_git_root_in.
  rewrite Hgit. apply Z.eqb_neq in Hrc. now rewrite Hrc.
Qed.

Lemma get_git_root_not_a_repository_witness :
  Ops.get_git_root (Scenario.env_with Scenario.no_data) (Some "/tmp") Scenario.bare
  = (Raise (VaihdeError "Not a git repository: /tmp"),
     spawned (git_rev_parse "/tmp") (fs Scenario.bare) Scenario.bare).
Proof.
  apply (get_git_root_not_a_repository (Scenario.env_with Scenario.no_data)
           (Some "/tmp") "/tmp" Scenario.bare 128 "" "fatal: not a git repository").
  - reflexivity.
  - reflexivity.
  - discriminate.
Defined.

Lemma rev_involutive s : PyStr.rev (PyStr.rev s) = s.
Proof.
  induction s as [|c s IH]; [reflexivity|].
  rewrite rev_cons, rev_append, IH. reflexivity.
Qed.

Lemma lstrip_clean chars s :
  match s with EmptyString => true | String c _ => negb (PyStr.mem c chars) end = true ->
  PyStr.lstrip chars s = s.
Proof.
  destruct s as [|c s]; [reflexivity|]. simpl. intros H.
  apply negb_true_iff in H. now rewrite H.
Qed.

(** [strip] removes the newline that ends a line of output. *)
Lemma strip_line (p : string) :
  clean p = true -> clean (PyStr.rev p) = true ->
  PyStr.strip (p +:+ String (ascii_of_nat 10) "") = p.
Proof.
  intros Hhead Htail. unfold PyStr.strip.
  destruct p as [|c p].
  - reflexivity.
  - rewrite append_cons. rewrite (lstrip_clean _ (String c _)) by exact Hhead.
    unfold PyStr.rstrip. rewrite <- append_cons, rev_append.
    change (PyStr.rev (String (ascii_of_nat 10) ""))
      with (String (ascii_of_nat 10) "").
    rewrite append_cons, append_nil_l.
    change (PyStr.lstrip PyStr.whitespace
              (String (ascii_of_nat 10) (PyStr.rev (String c p))))
      with (PyStr.lstrip PyStr.whitespace (PyStr.rev (String c p))).
    rewrite lstrip_clean by exact Htail. apply rev_involutive.
Qed.

(** X2: when git rev-parse exits with 0 and prints a line [p] followed by a
    newline ([p] without whitespace at either end), [get_git_root] returns
    the path [p]: the newline is stripped. *)
Theorem get_git_root_strips_newline env path dir w (p : string) err f' :
  dir_of env path = Returns dir ->
  spawn env (git_rev_parse dir) (fs w)
  = (Exited 0 (p +:+ String (ascii_of_nat 10) "") err, f') ->
  clean p = true -> clean (PyStr.rev p) = true ->
  Ops.get_git_root env path w = (Ok (of_str p), spawned (git_rev_parse dir) f' w).
Proof.
  intros Hdir Hgit H1 H2. rewrite get_git_root_eq, Hdir, get_git_root_in.
  rewrite Hgit. simpl Z.eqb. cbv iota. now rewrite strip_line.
Qed.

Lemma get_git_root_strips_newline_witness :
  Ops.get_git_root (Scenario.env_with Scenario.no_data) None Scenario.bare
  = (Ok "/repo", spawned (git_rev_parse "/repo") (fs Scenario.bare) Scenario.bare).
Proof.
  apply (get_git_root_strips_newline (Scenario.env_with Scenario.no_data)
           None "/repo" Scenario.bare "/repo" "").
  - reflexivity.
  - reflexivity.
  - reflexivity.
  - reflexivity.
Defined.

(** X3: when [target/name] does not exist, git show-ref exits with a
    non-zero status (no such branch), the target directory can be made and
    git worktree add exits with 0, [create_worktree] returns [target/name]. *)
Theorem create_worktree_succeeds env repo_root target name w
    rc1 out1 err1 f1 w2 out err f3 :
  path_exists (fs w) (joinpath target name) = false ->
  spawn env (git_show_ref repo_root name) (fs w) = (Exited rc1 out1 err1, f1) ->
  rc1 <> 0%Z ->
  mkdir_parents env target (spawned (git_show_ref repo_root name) f1 w) = (Ok tt, w2) ->
  spawn env (git_worktree_add repo_root name (joinpath target name)) (fs w2)
  = (Exited 0 out err, f3) ->
  Ops.create_worktree env repo_root target name w
  = (Ok (joinpath target name),
     spawned (git_worktree_add repo_root name (joinpath target name)) f3 w2).
Proof.
  intros Hdir Href Hrc Hmk Hadd.
  unfold Ops.create_worktree. set (worktree_path := joinpath target name) in *.
  unfold bind at 1. unfold exists_. rewrite Hdir.
  unfold bind at 1. rewrite branch_exists_eq, Href.
  apply Z.eqb_neq in Hrc. rewrite Hrc.
  unfold bind at 1. rewrite Hmk.
  unfold bind, try_except. rewrite subprocess_run_eq. cbv zeta.
  fold (git_worktree_add repo_root name worktree_path). rewrite Hadd. reflexivity.
Qed.

Lemma create_worktree_succeeds_witness :
  fst (Ops.create_worktree (Scenario.env_with Scenario.no_data)
         "/repo" "/wt" "feature" Scenario.bare) = Ok "/wt/feature".
Proof.
  erewrite (create_worktree_succeeds (Scenario.env_with Scenario.no_data)
              "/repo" "/wt" "feature" Scenario.bare 1 "" "").
  - reflexivity.
  - vm_compute. reflexivity.
  - vm_compute. reflexivity.
  - discriminate.
  - vm_compute. reflexivity.
  - vm_compute. reflexivity.
Defined.

(** X4: whenever [create_worktree] returns, what it returns is
    [target/name], that path did not exist when it was called, and it has
    run exactly git show-ref, the mkdir of the target and git worktree add,
    in this order. *)
Theorem create_worktree_returns_target_name env repo_root target name w p w' :
  Ops.create_worktree env repo_root target name w = (Ok p, w') ->
  p = joinpath target name /\
  path_exists (fs w) p = false /\
  trace w' = (trace w ++ [EvSpawn (git_show_ref repo_root name);
                          EvMkdir target;
                          EvSpawn (git_worktree_add repo_root name p)])%list.
Proof.
  unfold Ops.create_worktree. set (worktree_path := joinpath target name).
  unfold bind at 1. unfold exists_.
  destruct (path_exists (fs w) worktree_path) eqn:Edir; [discriminate|].
  unfold bind at 1. rewrite branch_exists_eq.
  destruct (spawn env (git_show_ref repo_root name) (fs w)) as [[rc so se|e] f1];
    [|discriminate].
  destruct (Z.eqb rc 0); [discriminate|].
  unfold bind at 1.
  destruct (mkdir_parents env target _) as [[[]|e] w2] eqn:Emk; [|discriminate].
  apply mkdir_parents_ok in Emk as (Hdir & Hin & Htr).
  unfold bind, try_except. rewrite subprocess_run_eq.
  cbv zeta. fold (git_worktree_add repo_root name worktree_path).
  destruct (spawn env (git_worktree_add repo_root name worktree_path) (fs w2))
    as [[rc2 so2 se2|e] f3]; simpl.
  2:{ discriminate. }
  destruct (Z.eqb rc2 0); simpl; [|discriminate].
  intros H; inversion H; subst. split; [reflexivity|]. split; [exact Edir|].
  simpl. rewrite Htr. simpl. repeat rewrite <- List.app_assoc. reflexivity.
Qed.

Lemma create_worktree_returns_target_name_witness :
  path_exists (fs Scenario.bare) "/wt/feature" = false.
Proof.
  apply (create_worktree_returns_target_name (Scenario.env_with Scenario.no_data)
           "/repo" "/wt" "feature" Scenario.bare "/wt/feature"
           (snd (Ops.create_worktree (Scenario.env_with Scenario.no_data)
                   "/repo" "/wt" "feature" Scenario.bare))).
  vm_compute. reflexivity.
Defined.

(** X5: every [VaihdeError] that [create_worktree] raises is one of three:
    the directory exists (nothing was run), the branch exists (only git
    show-ref was run, no directory made), or git worktree add failed (after
    the target directory was made). *)
Theorem create_worktree_errors env repo_root target name w msg w' :
  Ops.create_worktree env repo_root target name w = (Raise (VaihdeError msg), w') ->
  (VaihdeError msg = WorktreeExists (joinpath target name) /\
   path_exists (fs w) (joinpath target name) = true /\ w' = w)
  \/
  (VaihdeError msg = BranchExists name /\
   path_exists (fs w) (joinpath target name) = false /\
   trace w' = (trace w ++ [EvSpawn (git_show_ref repo_root name)])%list)
  \/
  (exists err, VaihdeError msg = WorktreeCreationFailed err /\
   path_exists (fs w) (joinpath target name) = false /\
   trace w' = (trace w ++ [EvSpawn (git_show_ref repo_root name);
                           EvMkdir target;
                           EvSpawn (git_worktree_add repo_root name
                                      (joinpath target name))])%list).
Proof.
  unfold Ops.create_worktree. set (worktree_path := joinpath target name).
  unfold bind at 1. unfold exists_.
  destruct (path_exists (fs w) worktree_path) eqn:Edir.
  { intros H; inversion H; subst. left. repeat split. }
  unfold bind at 1. rewrite branch_exists_eq.
  destruct (spawn env (git_show_ref repo_root name) (fs w)) as [[rc so se|e] f1];
    [|discriminate].
  destruct (Z.eqb rc 0).
  { intros H; inversion H; subst. right; left. repeat split. }
  unfold bind at 1.
  destruct (mkdir_parents env target _) as [[[]|e] w2] eqn:Emk.
  2:{ apply mkdir_parents_raises in Emk. intros H; inversion H; subst. discriminate. }
  apply mkdir_parents_ok in Emk as (Hdir & Hin & Htr).
  unfold bind, try_except. rewrite subprocess_run_eq.
  cbv zeta. fold (git_worktree_add repo_root name worktree_path).
  destruct (spawn env (git_worktree_add repo_root name worktree_path) (fs w2))
    as [[rc2 so2 se2|e] f3]; simpl.
  2:{ discriminate. }
  destruct (Z.eqb rc2 0); simpl; [discriminate|].
  intros H; inversion H; subst. right; right. eexists. repeat split.
  simpl. rewrite Htr. simpl. repeat rewrite <- List.app_assoc. reflexivity.
Qed.

Lemma create_worktree_errors_witness :
  path_exists (fs Scenario.bare) (joinpath "/wt" "main") = false.
Proof.
  destruct (create_worktree_errors (Scenario.env_with Scenario.no_data)
              "/repo" "/wt" "main" Scenario.bare "Branch already exists: main"
              (snd (Ops.create_worktree (Scenario.env_with Scenario.no_data)
                      "/repo" "/wt" "main" Scenario.bare)))
    as [(_ & H & _)|[(_ & H & _)|(err & _ & H & _)]].
  - vm_compute. reflexivity.
  - vm_compute in H. discriminate H.
  - exact H.
  - exact H.
Defined.

End GitMore.

(** ** [find_config], [load_config] and [mangle_path] *)

Module ConfigMore.
Import Py PurePath OS Types Spec SpecMore Runs RunsMore OpsFacts PyStrFacts.

(** X6: once the start directory and the repository root are known,
    [find_config] returns the global path if it exists, else the local path
    if that exists, else [None]. *)
Theorem find_config_precedence env start_dir dir w git_root w1 global :
  start_of env start_dir = Returns dir ->
  Ops.get_git_root env (Some dir) w = (Ok git_root, w1) ->
  Config.get_global_config_path env git_root = Ok global ->
  Config.find_config env start_dir w
  = (Ok (if path_exists (fs w1) global then Some global
         else if path_exists (fs w1) (Config.get_local_config_path git_root)
              then Some (Config.get_local_config_path git_root)
              else None), w1).
Proof.
  intros Hstart Hroot Hglobal.
  rewrite (find_config_start _ _ _ _ Hstart). unfold bind, try_except.
  rewrite Hroot. unfold ret, lift, exists_. rewrite Hglobal.
  destruct (path_exists (fs w1) global); [reflexivity|].
  destruct (path_exists (fs w1) (Config.get_local_config_path git_root)); reflexivity.
Qed.

Lemma find_config_precedence_witness :
  fst (Config.find_config (Scenario.env_with Scenario.no_data) None Scenario.with_local)
  = Ok (Some "/repo/vaihde.toml").
Proof.
  rewrite (find_config_precedence (Scenario.env_with Scenario.no_data) None "/repo"
             Scenario.with_local "/repo"
             (snd (Ops.get_git_root (Scenario.env_with Scenario.no_data)
                     (Some "/repo") Scenario.with_local))
             "/home/u/.config/vaihde/repo.toml").
  - vm_compute. reflexivity.
  - reflexivity.
  - vm_compute. reflexivity.
  - vm_compute. reflexivity.
Defined.

(** X7: [find_config] never raises a [VaihdeError]. *)
Theorem find_config_never_raises_VaihdeError env start_dir w r w' :
  Config.find_config env start_dir w = (r, w') ->
  forall msg, r <> Raise (VaihdeError msg).
Proof.
  destruct (start_of env start_dir) as [dir|e] eqn:Estart.
  2:{ rewrite (find_config_unresolved _ _ _ _ Estart).
      intros H; inversion H; subst. discriminate. }
  rewrite (find_config_start _ _ _ _ Estart).
  unfold bind at 1. unfold try_except. unfold bind at 1.
  rewrite get_git_root_in.
  destruct (spawn env _ (fs w)) as [[rc so se|e] f']; simpl.
  2:{ intros H; inversion H; subst. discriminate. }
  destruct (Z.eqb rc 0); simpl.
  2:{ intros H; inversion H; subst. discriminate. }
  unfold bind, lift, exists_, ret.
  unfold Config.get_global_config_path, Config.mangle_path.
  destruct (home env) as [h|e]; simpl.
  2:{ intros H; inversion H; subst. discriminate. }
  destruct (resolve env _) as [g|e]; simpl.
  2:{ intros H; inversion H; subst. discriminate. }
  repeat match goal with |- context [if ?b then _ else _] => destruct b end;
    intros H; inversion H; subst; discriminate.
Qed.

Lemma find_config_never_raises_VaihdeError_witness :
  fst (Config.find_config (Scenario.env_with Scenario.no_data) (Some "/tmp") Scenario.bare)
  <> Raise (VaihdeError "Not a git repository: /tmp").
Proof.
  apply (find_config_never_raises_VaihdeError (Scenario.env_with Scenario.no_data)
           (Some "/tmp") Scenario.bare _
           (snd (Config.find_config (Scenario.env_with Scenario.no_data)
                   (Some "/tmp") Scenario.bare))).
  vm_compute. reflexivity.
Defined.

(** X8: [find_config] starts at most one process.  When the start
    directory can be determined ([Path.cwd()] and [resolve()] return),
    then whatever [find_config] returns or raises, it has run one git
    rev-parse in the resolved start directory and nothing else: the disk is
    the one that command left, and nothing was read from the terminal.
    When the start directory cannot be determined, [find_config] raises
    that exception and has run nothing at all. *)
Theorem find_config_only_asks_git env start_dir w r w' :
  Config.find_config env start_dir w = (r, w') ->
  match start_of env start_dir with
  | Returns dir =>
      fs w' = snd (spawn env (git_rev_parse dir) (fs w)) /\
      stdin w' = stdin w /\
      trace w' = (trace w ++ [EvSpawn (git_rev_parse dir)])%list
  | Throws e => r = Raise (Builtin e) /\ w' = w
  end.
Proof.
  intros H. destruct (start_of env start_dir) as [dir|e] eqn:Estart.
  - apply (find_config_world _ _ _ _ _ _ Estart) in H. subst w'. repeat split.
  - rewrite (find_config_unresolved _ _ _ _ Estart) in H. inversion H. now split.
Qed.

Lemma find_config_only_asks_git_witness :
  trace (snd (Config.find_config (Scenario.env_with Scenario.no_data) None
                Scenario.with_both))
  = [EvSpawn (git_rev_parse "/repo")]
  /\
  Config.find_config (looping_env Scenario.no_data) (Some "/loop/a") Scenario.with_both
  = (Raise (Builtin (RuntimeError "Symlink loop from /loop/a")), Scenario.with_both).
Proof.
  split.
  - assert (H : Config.find_config (Scenario.env_with Scenario.no_data) None
                  Scenario.with_both
                = (fst (Config.find_config (Scenario.env_with Scenario.no_data) None
                          Scenario.with_both),
                   snd (Config.find_config (Scenario.env_with Scenario.no_data) None
                          Scenario.with_both)))
      by (vm_compute; reflexivity).
    apply find_config_only_asks_git in H. destruct H as (_ & _ & H). exact H.
  - assert (H : Config.find_config (looping_env Scenario.no_data) (Some "/loop/a")
                  Scenario.with_both
                = (fst (Config.find_config (looping_env Scenario.no_data)
                          (Some "/loop/a") Scenario.with_both),
                   snd (Config.find_config (looping_env Scenario.no_data)
                          (Some "/loop/a") Scenario.with_both)))
      by (vm_compute; reflexivity).
    apply find_config_only_asks_git in H. destruct H as (Hr & Hw).
    rewrite (surjective_pairing (Config.find_config _ _ _)), Hr, Hw. reflexivity.
Defined.

Lemma replace_append old new a b :
  PyStr.replace old new (a +:+ b) = PyStr.replace old new a +:+ PyStr.replace old new b.
Proof.
  induction a as [|c a IH]; [reflexivity|].
  rewrite append_cons. simpl. destruct (Ascii.eqb c old).
  - now rewrite IH, append_assoc.
  - now rewrite IH, append_cons.
Qed.

Lemma replace_absent old new s :
  PyStr.mem old s = false -> PyStr.replace old new s = s.
Proof.
  induction s as [|c s IH]; [reflexivity|]. simpl. intros H.
  apply orb_false_iff in H as [Hc Hs]. rewrite Ascii.eqb_sym, Hc. now rewrite IH.
Qed.

Lemma replace_join segs :
  forallb segment_ok segs = true ->
  PyStr.replace PyStr.slash "__" (join_with "/" segs) = join_with "__" segs.
Proof.
  induction segs as [|s segs IH]; [reflexivity|].
  intros H. simpl in H. apply andb_true_iff in H as [Hs Hrest].
  apply andb_true_iff in Hs as [Hs _]. apply negb_true_iff in Hs.
  destruct segs as [|t segs].
  - simpl. now apply replace_absent.
  - change (join_with "/" (s :: t :: segs))
      with (s +:+ "/" +:+ join_with "/" (t :: segs)).
    change (join_with "__" (s :: t :: segs))
      with (s +:+ "__" +:+ join_with "__" (t :: segs)).
    rewrite !replace_append, (IH Hrest), replace_absent by exact Hs. reflexivity.
Qed.

Lemma join_head segs :
  forallb segment_ok segs = true ->
  PyStr.startswith "/" (join_with "/" segs) = false.
Proof.
  destruct segs as [|s segs]; [reflexivity|]. intros H. simpl in H.
  apply andb_true_iff in H as [Hs _]. apply andb_true_iff in Hs as [Hs He].
  apply negb_true_iff in Hs, He.
  destruct s as [|c s]; [discriminate|].
  cbn [PyStr.mem] in Hs. apply orb_false_iff in Hs as [Hc _].
  assert (Hj : exists r, join_with "/" (String c s :: segs) = String c r).
  { destruct segs; cbn [join_with]; rewrite ?append_cons; eauto. }
  destruct Hj as [r ->]. cbn [PyStr.startswith].
  change "/"%char with PyStr.slash. rewrite Hc. reflexivity.
Qed.

(** On a path string with segments [s1, ..., sn] the string part of
    [mangle_path] gives [s1__...__sn.toml]. *)
Lemma mangle_str_segments segs :
  forallb segment_ok segs = true ->
  Config.mangle_str ("/" +:+ join_with "/" segs) = join_with "__" segs +:+ ".toml".
Proof.
  intros H. unfold Config.mangle_str. f_equal.
  change ("/" +:+ join_with "/" segs) with (String PyStr.slash (join_with "/" segs)).
  change "/" with (String PyStr.slash "").
  rewrite lstrip_single by (apply join_head; exact H).
  now apply replace_join.
Qed.

(** X9: a path whose resolved form is [/s1/.../sn], each segment non-empty
    and without separator, is named [s1__...__sn.toml] (as in the docstring:
    [/Users/akx/build/foo] gives [Users__akx__build__foo.toml]). *)
Theorem mangle_path_segments env path segs :
  resolve env path = Returns ("/" +:+ join_with "/" segs) ->
  forallb segment_ok segs = true ->
  Config.mangle_path env path = Ok (join_with "__" segs +:+ ".toml").
Proof.
  intros Hres Hsegs. unfold Config.mangle_path. rewrite Hres.
  now rewrite mangle_str_segments.
Qed.

Lemma mangle_path_segments_witness :
  Config.mangle_path (Scenario.env_with Scenario.no_data) "/Users/akx/build/foo"
  = Ok "Users__akx__build__foo.toml".
Proof.
  apply (mangle_path_segments (Scenario.env_with Scenario.no_data)
           "/Users/akx/build/foo" ["Users"; "akx"; "build"; "foo"]).
  - reflexivity.
  - reflexivity.
Defined.

(** X10: a file whose data has no [worktree_root] is rejected with the
    "Missing required 'worktree_root'" [VaihdeError], whatever else it
    holds. *)
Theorem load_config_missing_root env path w text data :
  read_text path w = (Ok text, w) ->
  tomllib_loads env text = Returns data ->
  dict_get "worktree_root" data = None ->
  Config.load_config env path w
  = (Raise (VaihdeError ("Missing required 'worktree_root' in " +:+ path)), w).
Proof.
  intros Hread Hparse Hroot.
  unfold Config.load_config. unfold bind at 1. rewrite Hread.
  unfold bind at 1. unfold lift. rewrite Hparse. cbn [of_lib].
  unfold Config.config_of_data. now rewrite Hroot.
Qed.

Lemma load_config_missing_root_witness :
  Config.load_config (Scenario.env_with [("post_commands", TInt 3)]) "/repo/vaihde.toml"
    Scenario.with_local
  = (Raise (VaihdeError "Missing required 'worktree_root' in /repo/vaihde.toml"),
     Scenario.with_local).
Proof.
  apply (load_config_missing_root (Scenario.env_with [("post_commands", TInt 3)])
           "/repo/vaihde.toml" Scenario.with_local "cfg" [("post_commands", TInt 3)]).
  - reflexivity.
  - reflexivity.
  - reflexivity.
Defined.

Lemma dict_get_skip (k k' : string) (v : value) (d1 d2 : list (string * value)) :
  k' <> k ->
  dict_get k' (d1 ++ (k, v) :: d2)%list = dict_get k' (d1 ++ d2)%list.
Proof.
  intros Hne. induction d1 as [|[a x] d1 IH]; simpl.
  - destruct (String.eqb_spec k' k); [contradiction|reflexivity].
  - now rewrite IH.
Qed.

(** X11: a top-level key other than [worktree_root], [copy] and
    [post_commands] changes nothing: the data with and without it give the
    same configuration or the same error. *)
Theorem load_config_ignores_unknown_key env path k v d1 d2 :
  k <> "worktree_root" -> k <> "copy" -> k <> "post_commands" ->
  Config.config_of_data env path (d1 ++ (k, v) :: d2)%list
  = Config.config_of_data env path (d1 ++ d2)%list.
Proof.
  intros H1 H2 H3. unfold Config.config_of_data, Config.get_or.
  rewrite !dict_get_skip by congruence. reflexivity.
Qed.

Lemma load_config_ignores_unknown_key_witness :
  Config.config_of_data (Scenario.env_with Scenario.no_data) "/repo/vaihde.toml"
    ([("worktree_root", TStr "/wt")] ++ ("editor", TStr "vi") :: [("copy", TTable [])])%list
  = Config.config_of_data (Scenario.env_with Scenario.no_data) "/repo/vaihde.toml"
      ([("worktree_root", TStr "/wt")] ++ [("copy", TTable [])])%list.
Proof.
  apply load_config_ignores_unknown_key; discriminate.
Defined.

(** X12: [load_config] only reads: whatever it returns or raises, the
    world is as it was. *)
Theorem load_config_reads_only env path w r w' :
  Config.load_config env path w = (r, w') -> w' = w.
Proof.
  unfold Config.load_config, bind, read_text, lift.
  destruct (fs w !! path) as [[c m|]|]; [|intros H; now inversion H..].
  destruct (tomllib_loads env c) as [data|e]; cbn [of_lib];
    [|intros H; now inversion H].
  destruct (Config.config_of_data env path data); intros H; now inversion H.
Qed.

Lemma load_config_reads_only_witness :
  snd (Config.load_config (Scenario.env_with Scenario.full_data) "/repo/vaihde.toml"
         Scenario.with_local) = Scenario.with_local.
Proof.
  apply (load_config_reads_only (Scenario.env_with Scenario.full_data)
           "/repo/vaihde.toml" Scenario.with_local
           (fst (Config.load_config (Scenario.env_with Scenario.full_data)
                   "/repo/vaihde.toml" Scenario.with_local))).
  vm_compute. reflexivity.
Defined.

End ConfigMore.

(** ** [copy_files] and [run_commands] *)

Module OpsMore.
Import Py PurePath OS Types Spec SpecMore Runs RunsMore OpsFacts PyStrFacts.

Lemma make_dirs_preserves ps : forall f r f' (q : Path) n,
  make_dirs ps f = (r, f') -> f !! q = Some n -> f' !! q = Some n.
Proof.
  induction ps as [|p ps IH]; intros f r f' q n H Hq; simpl in H.
  - now inversion H; subst.
  - destruct (f !! p) as [[c m|]|] eqn:Ep.
    + now inversion H; subst.
    + eauto.
    + eapply IH; [exact H|].
      rewrite lookup_insert_ne; [exact Hq|].
      intros Heq. subst q. rewrite Ep in Hq. discriminate.
Qed.

Lemma mkdir_parents_preserves env p w w' (q : Path) n :
  mkdir_parents env p w = (Ok tt, w') -> fs w !! q = Some n -> fs w' !! q = Some n.
Proof.
  rewrite mkdir_parents_eq.
  destruct (fs_fault env (OpMkdir p) (fs w)) as [[msg f']|]; [discriminate|].
  destruct (make_dirs _ (fs w)) as [r f'] eqn:E. intros H Hq; inversion H; subst.
  simpl. eapply make_dirs_preserves; eauto.
Qed.

(** X13: a listed file that exists in the source directory, whose
    destination directory can be made and written, is copied with its
    content and modification time; the source stays as it was. *)
Theorem copy_file_copies env src_dir dst_dir (f : string) w content mtime w1 :
  let src := joinpath src_dir f in
  let dst := joinpath dst_dir f in
  fs w !! src = Some (File content mtime) ->
  mkdir_parents env (parent dst) w = (Ok tt, w1) ->
  fs_fault env (OpCopy2 src dst) (fs w1) = None ->
  is_dir (fs w1) dst = false ->
  dst <> src ->
  exists w',
    Ops.copy_file env src_dir dst_dir (TStr f) w = (Ok tt, w') /\
    fs w' = <[dst := File content mtime]> (fs w1) /\
    fs w' !! dst = Some (File content mtime) /\
    fs w' !! src = Some (File content mtime).
Proof.
  intros src dst Hsrc Hmk Hfault Hnodir Hne.
  pose proof (mkdir_parents_preserves _ _ _ _ _ _ Hmk Hsrc) as Hsrc1.
  pose proof (mkdir_parents_ok _ _ _ _ Hmk) as (Hdirs & _ & _).
  apply Forall_last in Hdirs.
  unfold Ops.copy_file, lift, as_path_str. unfold bind at 1.
  unfold try_except. unfold bind at 1. unfold exists_.
  fold src dst. unfold path_exists. rewrite Hsrc. cbn [negb].
  unfold bind at 1. rewrite Hmk. unfold bind at 1.
  unfold copy2. unfold bind at 1. unfold emit. unfold bind at 1. unfold get_fs.
  cbn [fs]. rewrite Hfault, Hsrc1, Hnodir.
  destruct (String.eqb_spec dst src) as [Heq|_]; [contradiction|].
  rewrite Hnodir, Hdirs. unfold set_fs. cbn [fs stdin trace]. rewrite log_eq.
  eexists. split; [reflexivity|]. cbn [logged fs]. split; [reflexivity|]. split.
  - apply lookup_insert_eq.
  - rewrite lookup_insert_ne by exact Hne. exact Hsrc1.
Qed.

Lemma copy_file_copies_witness :
  exists w',
    Ops.copy_file (Scenario.env_with Scenario.no_data) "/repo" "/wt/feature"
      (TStr ".env") Scenario.bare = (Ok tt, w') /\
    fs w' !! joinpath "/wt/feature" ".env" = Some (File "SECRET=123" 7%Z).
Proof.
  destruct (copy_file_copies (Scenario.env_with Scenario.no_data) "/repo" "/wt/feature"
              ".env" Scenario.bare "SECRET=123" 7%Z
              (snd (mkdir_parents (Scenario.env_with Scenario.no_data) "/wt/feature"
                      Scenario.bare)))
    as (w' & H1 & _ & H3 & _).
  - vm_compute. reflexivity.
  - vm_compute. reflexivity.
  - vm_compute. reflexivity.
  - vm_compute. reflexivity.
  - intros H. vm_compute in H. discriminate H.
  - exists w'. split; [exact H1|exact H3].
Defined.

(** X14: a post-command that starts and exits with [rc] is reported so:
    nothing more on status 0; otherwise a warning with the status and,
    when the command wrote to its standard error, a second warning with
    that text stripped.  The loop body returns in every case. *)
Theorem run_command_report env dir c spec w rc out err f1 :
  command_spec env dir c = Some spec ->
  spawn env spec (fs w) = (Exited rc out err, f1) ->
  Ops.run_command env dir (post_command c) w
  = (Ok tt, reported spec f1 rc err (logged DEBUG "Running: %s" [TStr (fst c)] w)).
Proof.
  intros Hspec Hrun. destruct c as [s sh].
  unfold Ops.run_command, post_command. cbn [run shell fst snd truthy].
  unfold bind at 1. rewrite log_eq. unfold bind at 1, lift.
  unfold command_spec in Hspec. cbn [fst snd] in Hspec.
  assert (Hargs : (if sh then Ops.shell_args (TStr s) else Ops.split_args env (TStr s))
                  = Ok (argv spec) /\ use_shell spec = sh /\ cwd spec = dir).
  { destruct sh; simpl.
    - now inversion Hspec.
    - destruct (shlex_split env s); [|discriminate]. now inversion Hspec. }
  destruct Hargs as (-> & Hsh & Hcwd).
  unfold bind at 1. rewrite subprocess_run_eq. cbv zeta.
  replace {| argv := argv spec; use_shell := sh; cwd := dir |} with spec
    by (destruct spec; simpl in *; now subst).
  change (fs (logged DEBUG "Running: %s" [TStr s] w)) with (fs w).
  rewrite Hrun. cbn [andb returncode stderr]. unfold reported.
  destruct (Z.eqb rc 0); cbn [negb]; [reflexivity|].
  unfold bind at 1. rewrite log_eq.
  destruct (String.eqb err ""); cbn [negb]; [reflexivity|].
  now rewrite log_eq.
Qed.

Lemma run_command_report_witness :
  snd (Ops.run_command (Scenario.env_with Scenario.no_data) "/wt"
         (post_command ("false", false)) Scenario.bare)
  = logged WARNING "  %s" [TStr "boom"]
      (logged WARNING "Command failed with exit code %d" [TInt 1]
         (spawned {| argv := ["false"]; use_shell := false; cwd := "/wt" |}
            (fs Scenario.bare)
            (logged DEBUG "Running: %s" [TStr "false"] Scenario.bare))).
Proof.
  rewrite (run_command_report (Scenario.env_with Scenario.no_data) "/wt"
             ("false", false) {| argv := ["false"]; use_shell := false; cwd := "/wt" |}
             Scenario.bare 1%Z "" "boom" (fs Scenario.bare)).
  - reflexivity.
  - reflexivity.
  - reflexivity.
Defined.




End OpsMore.

(** ** The command line: [run], [cmd_list], [cmd_config_path], [cmd_init] *)

Module CliMore.
Import Py PurePath OS Types Spec SpecMore Runs RunsMore OpsFacts PyStrFacts.

(** X16: [run] never lets a [VaihdeError] or a [KeyboardInterrupt]
    escape: both are turned into an exit status. *)
Theorem run_catches_own_errors env argv w r w' :
  Cli.run env argv w = (r, w') ->
  (forall msg, r <> Raise (VaihdeError msg)) /\ r <> Raise (Builtin KeyboardInterrupt).
Proof.
  unfold Cli.run, try_except.
  match goal with |- context [let (_, _) := ?b w in _] => destruct (b w) as [[n|e] w1] end.
  - intros H; inversion H; subst. split; [intros msg Hc|intros Hc]; discriminate Hc.
  - destruct e as [msg|rc so se|e]; cbn [is_VaihdeError is_KeyboardInterrupt orb].
    + intros H; inversion H; subst. split; [intros m Hc|intros Hc]; discriminate Hc.
    + intros H; inversion H; subst. split; [intros m Hc|intros Hc]; discriminate Hc.
    + destruct e; cbn [orb]; intros H; inversion H; subst;
        (split; [intros m Hc|intros Hc]; discriminate Hc).
Qed.

Lemma run_catches_own_errors_witness :
  fst (Cli.run (env_in "/tmp" Scenario.no_data) ["list"] Scenario.bare)
  <> Raise (VaihdeError "Not a git repository: /tmp").
Proof.
  apply (run_catches_own_errors (env_in "/tmp" Scenario.no_data) ["list"] Scenario.bare
           (fst (Cli.run (env_in "/tmp" Scenario.no_data) ["list"] Scenario.bare))
           (snd (Cli.run (env_in "/tmp" Scenario.no_data) ["list"] Scenario.bare))).
  vm_compute. reflexivity.
Defined.

Lemma bind_ok {W A B} (m : M W A) (k : A -> M W B) w b w' :
  bind m k w = (Ok b, w') -> exists a w1, m w = (Ok a, w1) /\ k a w1 = (Ok b, w').
Proof.
  unfold bind. destruct (m w) as [[a|e] w1]; [eauto|discriminate].
Qed.

Lemma ret_ok {W A} (a b : A) (w w' : W) : ret a w = (Ok b, w') -> a = b.
Proof. unfold ret. now inversion 1. Qed.

Ltac step H :=
  let a := fresh "a" in let w1 := fresh "w" in let Hm := fresh "Hm" in
  apply bind_ok in H as (a & w1 & Hm & H).

Lemma cmd_new_exit_codes env name w n w' :
  Cli.cmd_new env name w = (Ok n, w') -> n = 0%Z \/ n = 1%Z.
Proof.
  unfold Cli.cmd_new. intros H. step H. step H. step H.
  destruct a1 as [config_path|].
  - repeat step H. apply ret_ok in H. now left.
  - repeat step H. apply ret_ok in H. now right.
Qed.

Lemma cmd_init_exit_codes env w n w' :
  Cli.cmd_init env w = (Ok n, w') -> n = 0%Z \/ n = 1%Z.
Proof.
  unfold Cli.cmd_init. intros H. do 3 step H.
  destruct a1 as [existing|].
  - repeat step H. apply ret_ok in H. now right.
  - repeat step H. apply ret_ok in H. now left.
Qed.

(** X17: when [run] returns, the exit status is 0, 1 or 130. *)
Theorem run_exit_codes env argv w n w' :
  Cli.run env argv w = (Ok n, w') -> n = 0%Z \/ n = 1%Z \/ n = 130%Z.
Proof.
  unfold Cli.run, try_except.
  match goal with |- context [let (_, _) := ?b w in _] =>
    destruct (b w) as [[m|e] w1] eqn:Ebody end.
  - intros H; inversion H; subst. do 2 step Ebody.
    destruct (String.eqb (command a) "new").
    { destruct (ns_name a); [|discriminate].
      apply cmd_new_exit_codes in Ebody. tauto. }
    destruct (String.eqb (command a) "list").
    { unfold Cli.cmd_list in Ebody. repeat step Ebody. apply ret_ok in Ebody. auto. }
    destruct (String.eqb (command a) "config-path").
    { unfold Cli.cmd_config_path in Ebody. repeat step Ebody. apply ret_ok in Ebody. auto. }
    destruct (String.eqb (command a) "init").
    { apply cmd_init_exit_codes in Ebody. tauto. }
    step Ebody. apply ret_ok in Ebody. auto.
  - destruct (is_VaihdeError e || is_KeyboardInterrupt e); [|discriminate].
    destruct e as [msg|rc so se|[]]; intros H; step H; apply ret_ok in H; auto.
Qed.

Lemma run_exit_codes_witness :
  fst (Cli.run (Scenario.env_with Scenario.no_data) ["new"; "feature"] Scenario.bare)
  = Ok 1%Z
  /\ (1 = 0 \/ 1 = 1 \/ 1 = 130)%Z.
Proof.
  split.
  - vm_compute. reflexivity.
  - apply (run_exit_codes (Scenario.env_with Scenario.no_data) ["new"; "feature"]
             Scenario.bare 1%Z
             (snd (Cli.run (Scenario.env_with Scenario.no_data) ["new"; "feature"]
                     Scenario.bare))).
    vm_compute. reflexivity.
Defined.

(** The first step of each subcommand is [get_git_root] in the current
    directory; what it raises, the subcommand raises. *)
Lemma run_dispatch_first_step env ns (w0 : World) (e : exn) w1 :
  is_subcommand ns = true ->
  Ops.get_git_root env None w0 = (Raise e, w1) ->
  (if String.eqb (command ns) "new"
   then match ns_name ns with
        | Some name => Cli.cmd_new env name
        | None => raise (AttributeError "name")
        end
   else if String.eqb (command ns) "list" then Cli.cmd_list env
   else if String.eqb (command ns) "config-path" then Cli.cmd_config_path env
   else if String.eqb (command ns) "init" then Cli.cmd_init env
   else (log ERROR "Unknown command: %s" [TStr (command ns)] ;;; ret 1%Z)%py) w0
  = (Raise e, w1).
Proof.
  intros Hsub Hroot. unfold is_subcommand in Hsub.
  destruct (String.eqb (command ns) "new") eqn:Enew.
  - apply String.eqb_eq in Enew. rewrite Enew in Hsub.
    destruct (ns_name ns) as [name|]; [|discriminate].
    unfold Cli.cmd_new. unfold bind at 1. now rewrite Hroot.
  - destruct (String.eqb (command ns) "list").
    { unfold Cli.cmd_list. unfold bind at 1. now rewrite Hroot. }
    destruct (String.eqb (command ns) "config-path").
    { unfold Cli.cmd_config_path. unfold bind at 1. now rewrite Hroot. }
    destruct (String.eqb (command ns) "init"); [|discriminate].
    unfold Cli.cmd_init. unfold bind at 1. now rewrite Hroot.
Qed.

(** X18: every subcommand run outside a git repository exits with status
    1 after logging "Error: Not a git repository: <cwd>"; git rev-parse is
    the only thing it has started. *)
Theorem run_outside_repository env argv ns cwd w rc out err f' :
  argparse env argv = Returns ns ->
  is_subcommand ns = true ->
  getcwd env = Returns cwd ->
  spawn env (git_rev_parse cwd) (fs w) = (Exited rc out err, f') ->
  rc <> 0%Z ->
  Cli.run env argv w
  = (Ok 1%Z,
     logged ERROR "Error: %s" [TStr ("Not a git repository: " +:+ cwd)]
       (spawned (git_rev_parse cwd) f' (configured (verbosity ns) w))).
Proof.
  intros Hparse Hsub Hcwd Hgit Hrc.
  unfold Cli.run, try_except, Cli.parse_args. unfold bind at 1. unfold lift.
  rewrite Hparse. cbn [of_lib]. unfold bind at 1.
  unfold Cli.setup_logging, emit. fold (verbosity ns). fold (configured (verbosity ns) w).
  erewrite run_dispatch_first_step; [|exact Hsub|].
  2:{ rewrite get_git_root_eq. unfold dir_of. rewrite Hcwd, get_git_root_in.
      change (fs (configured (verbosity ns) w)) with (fs w). rewrite Hgit.
      apply Z.eqb_neq in Hrc. rewrite Hrc. reflexivity. }
  reflexivity.
Qed.

Lemma run_outside_repository_witness :
  Cli.run (env_in "/tmp" Scenario.no_data) ["init"] Scenario.bare
  = (Ok 1%Z,
     logged ERROR "Error: %s" [TStr "Not a git repository: /tmp"]
       (spawned (git_rev_parse "/tmp") (fs Scenario.bare)
          (configured INFO Scenario.bare))).
Proof.
  apply (run_outside_repository (env_in "/tmp" Scenario.no_data) ["init"]
           {| command := "init"; ns_name := None; ns_verbose := None |} "/tmp"
           Scenario.bare 128%Z "" "fatal: not a git repository" (fs Scenario.bare)).
  - reflexivity.
  - reflexivity.
  - reflexivity.
  - reflexivity.
  - discriminate.
Defined.

(** X19: a subcommand interrupted while git rev-parse runs exits with
    status 130 after logging "Interrupted" at level INFO. *)
Theorem run_interrupted env argv ns cwd w f' :
  argparse env argv = Returns ns ->
  is_subcommand ns = true ->
  getcwd env = Returns cwd ->
  spawn env (git_rev_parse cwd) (fs w) = (NotLaunched KeyboardInterrupt, f') ->
  Cli.run env argv w
  = (Ok 130%Z,
     logged INFO (String (ascii_of_nat 10) "Interrupted") []
       (spawned (git_rev_parse cwd) f' (configured (verbosity ns) w))).
Proof.
  intros Hparse Hsub Hcwd Hgit.
  unfold Cli.run, try_except, Cli.parse_args. unfold bind at 1. unfold lift.
  rewrite Hparse. cbn [of_lib]. unfold bind at 1.
  unfold Cli.setup_logging, emit. fold (verbosity ns). fold (configured (verbosity ns) w).
  erewrite run_dispatch_first_step; [|exact Hsub|].
  2:{ rewrite get_git_root_eq. unfold dir_of. rewrite Hcwd, get_git_root_in.
      change (fs (configured (verbosity ns) w)) with (fs w). rewrite Hgit. reflexivity. }
  reflexivity.
Qed.

Lemma run_interrupted_witness :
  fst (Cli.run interrupted_env ["new"; "feature"] Scenario.bare) = Ok 130%Z.
Proof.
  rewrite (run_interrupted interrupted_env ["new"; "feature"]
             {| command := "new"; ns_name := Some "feature"; ns_verbose := Some false |}
             "/repo" Scenario.bare (fs Scenario.bare)).
  - reflexivity.
  - reflexivity.
  - reflexivity.
  - reflexivity.
  - reflexivity.
Defined.

(** X20: [list] in a repository runs git worktree list in the repository
    root and exits with 0 if git does, and otherwise with 1 after logging
    "Error: Failed to list worktrees". *)
Theorem run_list_exit_code env argv ns w git_root w1 rc out err f2 :
  argparse env argv = Returns ns ->
  command ns = "list" ->
  Ops.get_git_root env None (configured (verbosity ns) w) = (Ok git_root, w1) ->
  spawn env (git_worktree_list git_root) (fs w1) = (Exited rc out err, f2) ->
  Cli.run env argv w
  = if Z.eqb rc 0
    then (Ok 0%Z, spawned (git_worktree_list git_root) f2 w1)
    else (Ok 1%Z, logged ERROR "Error: %s" [TStr "Failed to list worktrees"]
                    (spawned (git_worktree_list git_root) f2 w1)).
Proof.
  intros Hparse Hcmd Hroot Hlist.
  unfold Cli.run, try_except, Cli.parse_args. unfold bind at 1. unfold lift.
  rewrite Hparse. cbn [of_lib]. unfold bind at 1.
  unfold Cli.setup_logging, emit. fold (verbosity ns). fold (configured (verbosity ns) w).
  rewrite Hcmd. cbn [String.eqb Ascii.eqb Bool.eqb]. cbv iota.
  unfold Cli.cmd_list. unfold bind at 1. rewrite Hroot.
  unfold bind at 1. unfold Ops.list_worktrees, try_except. unfold bind at 1.
  rewrite subprocess_run_eq. cbv zeta. fold (git_worktree_list git_root).
  rewrite Hlist. destruct (Z.eqb rc 0); reflexivity.
Qed.

Lemma run_list_exit_code_witness :
  fst (Cli.run (Scenario.env_with Scenario.no_data) ["list"] Scenario.bare) = Ok 0%Z.
Proof.
  rewrite (run_list_exit_code (Scenario.env_with Scenario.no_data) ["list"]
             {| command := "list"; ns_name := None; ns_verbose := None |}
             Scenario.bare "/repo"
             (snd (Ops.get_git_root (Scenario.env_with Scenario.no_data) None
                     (configured INFO Scenario.bare)))
             0%Z "" "" (fs Scenario.bare)).
  - reflexivity.
  - reflexivity.
  - reflexivity.
  - vm_compute. reflexivity.
  - vm_compute. reflexivity.
Defined.

(** X21: [config-path] in a repository prints the global configuration
    path of the repository root and exits with 0, whether or not a file is
    there. *)
Theorem run_config_path env argv ns w git_root w1 global :
  argparse env argv = Returns ns ->
  command ns = "config-path" ->
  Ops.get_git_root env None (configured (verbosity ns) w) = (Ok git_root, w1) ->
  Config.get_global_config_path env git_root = Ok global ->
  Cli.run env argv w = (Ok 0%Z, printed global w1).
Proof.
  intros Hparse Hcmd Hroot Hglobal.
  unfold Cli.run, try_except, Cli.parse_args. unfold bind at 1. unfold lift.
  rewrite Hparse. cbn [of_lib]. unfold bind at 1.
  unfold Cli.setup_logging, emit. fold (verbosity ns). fold (configured (verbosity ns) w).
  rewrite Hcmd. cbn [String.eqb Ascii.eqb Bool.eqb]. cbv iota.
  unfold Cli.cmd_config_path. unfold bind at 1. rewrite Hroot.
  unfold bind at 1. unfold lift. rewrite Hglobal. reflexivity.
Qed.

Lemma run_config_path_witness :
  trace (snd (Cli.run (Scenario.env_with Scenario.no_data) ["config-path"] Scenario.bare))
  = [EvBasicConfig INFO; EvSpawn (git_rev_parse "/repo");
     EvPrint "/home/u/.config/vaihde/repo.toml"].
Proof.
  rewrite (run_config_path (Scenario.env_with Scenario.no_data) ["config-path"]
             {| command := "config-path"; ns_name := None; ns_verbose := None |}
             Scenario.bare "/repo"
             (snd (Ops.get_git_root (Scenario.env_with Scenario.no_data) None
                     (configured INFO Scenario.bare)))
             "/home/u/.config/vaihde/repo.toml").
  - vm_compute. reflexivity.
  - reflexivity.
  - reflexivity.
  - vm_compute. reflexivity.
  - vm_compute. reflexivity.
Defined.

(** X22: [init] refuses to overwrite: when a configuration file is found,
    it logs "Config already exists: <path>", exits with 1, asks nothing and
    writes nothing. *)
Theorem cmd_init_refuses_existing env w git_root w1 global_path existing w2 :
  Ops.get_git_root env None w = (Ok git_root, w1) ->
  Config.get_global_config_path env git_root = Ok global_path ->
  Config.find_config env None w1 = (Ok (Some existing), w2) ->
  Cli.cmd_init env w
  = (Ok 1%Z, logged ERROR "Config already exists: %s" [TStr existing] w2).
Proof.
  intros Hroot Hglobal Hfind. unfold Cli.cmd_init.
  unfold bind at 1. rewrite Hroot. unfold bind at 1. unfold lift. rewrite Hglobal.
  unfold bind at 1. rewrite Hfind. unfold bind at 1. rewrite log_eq. reflexivity.
Qed.

Lemma cmd_init_refuses_existing_witness :
  fst (Cli.cmd_init (Scenario.env_with Scenario.no_data) Scenario.with_local) = Ok 1%Z
  /\
  fs (snd (Cli.cmd_init (Scenario.env_with Scenario.no_data) Scenario.with_local))
  = fs Scenario.with_local.
Proof.
  rewrite (cmd_init_refuses_existing (Scenario.env_with Scenario.no_data)
             Scenario.with_local "/repo"
             (snd (Ops.get_git_root (Scenario.env_with Scenario.no_data) None
                     Scenario.with_local))
             "/home/u/.config/vaihde/repo.toml" "/repo/vaihde.toml"
             (snd (Config.find_config (Scenario.env_with Scenario.no_data) None
                     (snd (Ops.get_git_root (Scenario.env_with Scenario.no_data) None
                             Scenario.with_local))))).
  - split; [reflexivity|]. vm_compute. reflexivity.
  - vm_compute. reflexivity.
  - vm_compute. reflexivity.
  - vm_compute. reflexivity.
Defined.

(** X23: [init] in a repository without configuration, with two lines to
    read and a writable disk, creates the parent directories of the chosen
    path (the global one on answer 2, the local one on any other answer),
    writes the template with the chosen worktree root (the default
    [~/worktrees/<repository name>] on an empty answer), prints
    "Created: <path>" and exits with 0. *)
Theorem cmd_init_writes_config env w git_root w1 global_path w2 choice answer rest f3 :
  let local_path := Config.get_local_config_path git_root in
  let config_path :=
    if String.eqb (PyStr.strip choice) "2" then global_path else local_path in
  let default_root := "~/worktrees/" +:+ name git_root in
  let worktree_root :=
    if String.eqb (PyStr.strip answer) "" then default_root else PyStr.strip answer in
  Ops.get_git_root env None w = (Ok git_root, w1) ->
  Config.get_global_config_path env git_root = Ok global_path ->
  Config.find_config env None w1 = (Ok None, w2) ->
  stdin w2 = choice :: answer :: rest ->
  fs_fault env (OpMkdir (parent config_path)) (fs w2) = None ->
  make_dirs (ancestors (parent config_path) ++ [parent config_path]) (fs w2) = (Ok tt, f3) ->
  fs_fault env (OpWriteText config_path) f3 = None ->
  is_dir f3 config_path = false ->
  exists w',
    Cli.cmd_init env w = (Ok 0%Z, w') /\
    fs w' = <[config_path := File (Cli.CONFIG_TEMPLATE worktree_root) 0%Z]> f3 /\
    stdin w' = rest /\
    trace w' = (trace (asked local_path global_path default_root rest w2) ++
                [EvMkdir (parent config_path);
                 EvWriteText config_path;
                 EvPrint ("Created: " +:+ config_path)])%list.
Proof.
  intros local_path config_path default_root worktree_root
    Hroot Hglobal Hfind Hin Hf1 Hmk Hf2 Hnodir.
  assert (Hparent : is_dir f3 (parent config_path) = true).
  { unfold is_dir. erewrite make_dirs_made; [reflexivity|exact Hmk|].
    apply in_or_app; right; now left. }
  unfold Cli.cmd_init.
  unfold bind at 1. rewrite Hroot. unfold bind at 1. unfold lift. rewrite Hglobal.
  unfold bind at 1. rewrite Hfind.
  unfold bind at 1. unfold print at 1. unfold emit at 1.
  unfold bind at 1. unfold print at 1. unfold emit at 1.
  unfold bind at 1. unfold print at 1. unfold emit at 1.
  unfold bind at 1. unfold input at 1. cbn [stdin]. rewrite Hin.
  unfold bind at 1. unfold input at 1. cbn [stdin].
  fold local_path default_root config_path worktree_root.
  unfold bind at 1. rewrite mkdir_parents_eq. cbn [fs]. rewrite Hf1, Hmk.
  unfold bind at 1. unfold write_text. unfold bind at 1. unfold emit at 1.
  unfold bind at 1. unfold get_fs. cbn [fs made]. rewrite Hf2, Hnodir, Hparent.
  unfold set_fs. cbn [fs stdin trace]. unfold bind at 1. unfold print, emit.
  cbn [fs stdin trace]. eexists. split; [reflexivity|].
  cbn [fs stdin trace asked made]. repeat split.
  repeat rewrite <- List.app_assoc. reflexivity.
Qed.

Lemma cmd_init_writes_config_witness :
  exists w',
    Cli.cmd_init (Scenario.env_with Scenario.no_data) answering = (Ok 0%Z, w') /\
    fs w' !! "/home/u/.config/vaihde/repo.toml"
    = Some (File (Cli.CONFIG_TEMPLATE "~/worktrees/repo") 0%Z).
Proof.
  destruct (cmd_init_writes_config (Scenario.env_with Scenario.no_data) answering "/repo"
              (snd (Ops.get_git_root (Scenario.env_with Scenario.no_data) None answering))
              "/home/u/.config/vaihde/repo.toml"
              (snd (Config.find_config (Scenario.env_with Scenario.no_data) None
                      (snd (Ops.get_git_root (Scenario.env_with Scenario.no_data) None
                              answering))))
              "2" "" []
              (snd (make_dirs (ancestors "/home/u/.config/vaihde"
                               ++ ["/home/u/.config/vaihde"])%list (fs answering))))
    as (w' & H1 & H2 & _).
  - vm_compute. reflexivity.
  - vm_compute. reflexivity.
  - vm_compute. reflexivity.
  - vm_compute. reflexivity.
  - vm_compute. reflexivity.
  - vm_compute. reflexivity.
  - vm_compute. reflexivity.
  - vm_compute. reflexivity.
  - exists w'. split; [exact H1|]. rewrite H2. vm_compute. reflexivity.
Defined.

End CliMore.
